(** * widgetCapture.tsx: lifecycle of the embedded verification widget

    A shallow embedding of the React component [WidgetDemo] of
    [src/pages/widgetCapture.tsx].  The component's refs and state hooks are
    the fields of a record [State]; the browser's timer queue, the global
    [window.initializeDiroWidget] and the console are part of the same record,
    so that every function of the component is a pure function on [State].
    Closures that a timer keeps alive are represented by the render they were
    created in ([Render]): they see the refs of the component, which are
    shared, and the [containerKey] and [urn] of their own render. *)

From Stdlib Require Import List NArith Bool String Ascii Lia DecimalString DecimalN.
Import ListNotations.

Local Open Scope string_scope.
Local Open Scope list_scope.
Local Open Scope N_scope.

(** ** Data model *)

(** A thrown JavaScript value; only its text matters to the console. *)
Definition Error := string.

(** The payload of [updateWidget], typed [any] in the source. *)
Inductive JsValue :=
| JsUndefined
| JsNull
| JsBool (b : bool)
| JsNum (n : N)
| JsStr (s : string).

(** A child [div] of the container: its [id] and the markup inside it. *)
Record Element := { el_id : string; el_inner : string }.

(** [containerRef.current]: [None] is [null], [Some l] is the mounted
    container [div] with children [l]; [innerHTML = ''] leaves [Some []]. *)
Definition ContainerRef := option (list Element).

Record ContainerStyles :=
  { backgroundColor : string; padding : string; cs_borderRadius : string }.

Record ButtonStyles :=
  { fontSize : string; bs_borderRadius : string; width : string }.

Record WidgetOptions := {
  targetUrl : string;
  buttonText : string;
  allowRedirection : bool;
  openWith : string;
  containerStyles : ContainerStyles;
  buttonStyles : ButtonStyles
}.

(** [interface WidgetInstance]: [update] is mandatory, [destroy] optional.
    A method is a closure over [containerRef]; it returns the container it
    leaves behind and the value it threw, if any. *)
Definition Method := ContainerRef -> ContainerRef * option Error.

Record WidgetInstance := {
  update : JsValue -> Method;
  destroy : option Method
}.

(** The global provider [window.initializeDiroWidget]: given the child
    container's id and the options it either injects markup or throws. *)
Inductive ProviderResult :=
| Injected (markup : string)
| Raised (e : Error).

Definition Provider := string -> WidgetOptions -> ProviderResult.

(** What the component does to the outside world: console output and calls of
    the provider and of a handle's [destroy]. *)
Inductive LogEntry :=
| ConsoleError (msg : string) (e : Error)
| ConsoleErrorMsg (msg : string)
| ConsoleWarn (msg : string)
| ProviderCalled (elem : string) (opts : WidgetOptions)
| DestroyCalled.

(** The render a closure was created in. *)
Record Render := { r_key : N; r_urn : option string }.

(** The four callbacks the component hands to [setTimeout]/[setInterval]. *)
Inductive Callback :=
| MountDelayCb (r : Render)        (* setTimeout(initializeWidgetProcess, 300) *)
| ReinitDelayCb (r : Render)       (* setTimeout(() => initializeWidgetProcess(), 100) *)
| CheckIntervalCb (r : Render)     (* the setInterval callback, every 200 *)
| TimeoutCb (checkInterval : N).   (* the setTimeout callback, after 10000 *)

Record Timer := {
  tid : N;
  due : N;
  period : option N;               (* [Some p] for setInterval *)
  cb : Callback
}.

(** [containerKey] counts the calls of [reinitialize].  In the source it is
    a JavaScript number, which is exact on the integers below 2^53; here it
    is a natural number. *)
Record State := {
  (* props *)
  urn : option string;
  (* hooks *)
  containerKey : N;
  containerRef : ContainerRef;
  widgetInstance : option WidgetInstance;
  isWidgetLoaded : bool;
  hasInitialized : bool;
  effectTimer : N;                 (* [timer] of the latest [containerKey] effect *)
  mounted : bool;
  (* environment *)
  window_initializeDiroWidget : option Provider;
  now : N;
  timers : list Timer;
  nextTimerId : N;
  log : list LogEntry
}.

(** *** Field updates *)

Definition with_urn (v : option string) (s : State) : State :=
  {| urn := v; containerKey := containerKey s; containerRef := containerRef s;
     widgetInstance := widgetInstance s; isWidgetLoaded := isWidgetLoaded s;
     hasInitialized := hasInitialized s; effectTimer := effectTimer s;
     mounted := mounted s;
     window_initializeDiroWidget := window_initializeDiroWidget s;
     now := now s; timers := timers s; nextTimerId := nextTimerId s;
     log := log s |}.

Definition with_containerKey (v : N) (s : State) : State :=
  {| urn := urn s; containerKey := v; containerRef := containerRef s;
     widgetInstance := widgetInstance s; isWidgetLoaded := isWidgetLoaded s;
     hasInitialized := hasInitialized s; effectTimer := effectTimer s;
     mounted := mounted s;
     window_initializeDiroWidget := window_initializeDiroWidget s;
     now := now s; timers := timers s; nextTimerId := nextTimerId s;
     log := log s |}.

Definition with_containerRef (v : ContainerRef) (s : State) : State :=
  {| urn := urn s; containerKey := containerKey s; containerRef := v;
     widgetInstance := widgetInstance s; isWidgetLoaded := isWidgetLoaded s;
     hasInitialized := hasInitialized s; effectTimer := effectTimer s;
     mounted := mounted s;
     window_initializeDiroWidget := window_initializeDiroWidget s;
     now := now s; timers := timers s; nextTimerId := nextTimerId s;
     log := log s |}.

Definition with_widgetInstance (v : option WidgetInstance) (s : State) : State :=
  {| urn := urn s; containerKey := containerKey s; containerRef := containerRef s;
     widgetInstance := v; isWidgetLoaded := isWidgetLoaded s;
     hasInitialized := hasInitialized s; effectTimer := effectTimer s;
     mounted := mounted s;
     window_initializeDiroWidget := window_initializeDiroWidget s;
     now := now s; timers := timers s; nextTimerId := nextTimerId s;
     log := log s |}.

Definition with_isWidgetLoaded (v : bool) (s : State) : State :=
  {| urn := urn s; containerKey := containerKey s; containerRef := containerRef s;
     widgetInstance := widgetInstance s; isWidgetLoaded := v;
     hasInitialized := hasInitialized s; effectTimer := effectTimer s;
     mounted := mounted s;
     window_initializeDiroWidget := window_initializeDiroWidget s;
     now := now s; timers := timers s; nextTimerId := nextTimerId s;
     log := log s |}.

Definition with_hasInitialized (v : bool) (s : State) : State :=
  {| urn := urn s; containerKey := containerKey s; containerRef := containerRef s;
     widgetInstance := widgetInstance s; isWidgetLoaded := isWidgetLoaded s;
     hasInitialized := v; effectTimer := effectTimer s;
     mounted := mounted s;
     window_initializeDiroWidget := window_initializeDiroWidget s;
     now := now s; timers := timers s; nextTimerId := nextTimerId s;
     log := log s |}.

Definition with_effectTimer (v : N) (s : State) : State :=
  {| urn := urn s; containerKey := containerKey s; containerRef := containerRef s;
     widgetInstance := widgetInstance s; isWidgetLoaded := isWidgetLoaded s;
     hasInitialized := hasInitialized s; effectTimer := v;
     mounted := mounted s;
     window_initializeDiroWidget := window_initializeDiroWidget s;
     now := now s; timers := timers s; nextTimerId := nextTimerId s;
     log := log s |}.

Definition with_mounted (v : bool) (s : State) : State :=
  {| urn := urn s; containerKey := containerKey s; containerRef := containerRef s;
     widgetInstance := widgetInstance s; isWidgetLoaded := isWidgetLoaded s;
     hasInitialized := hasInitialized s; effectTimer := effectTimer s;
     mounted := v;
     window_initializeDiroWidget := window_initializeDiroWidget s;
     now := now s; timers := timers s; nextTimerId := nextTimerId s;
     log := log s |}.

Definition with_provider (v : option Provider) (s : State) : State :=
  {| urn := urn s; containerKey := containerKey s; containerRef := containerRef s;
     widgetInstance := widgetInstance s; isWidgetLoaded := isWidgetLoaded s;
     hasInitialized := hasInitialized s; effectTimer := effectTimer s;
     mounted := mounted s;
     window_initializeDiroWidget := v;
     now := now s; timers := timers s; nextTimerId := nextTimerId s;
     log := log s |}.

Definition with_now (v : N) (s : State) : State :=
  {| urn := urn s; containerKey := containerKey s; containerRef := containerRef s;
     widgetInstance := widgetInstance s; isWidgetLoaded := isWidgetLoaded s;
     hasInitialized := hasInitialized s; effectTimer := effectTimer s;
     mounted := mounted s;
     window_initializeDiroWidget := window_initializeDiroWidget s;
     now := v; timers := timers s; nextTimerId := nextTimerId s;
     log := log s |}.

Definition with_timers (v : list Timer) (s : State) : State :=
  {| urn := urn s; containerKey := containerKey s; containerRef := containerRef s;
     widgetInstance := widgetInstance s; isWidgetLoaded := isWidgetLoaded s;
     hasInitialized := hasInitialized s; effectTimer := effectTimer s;
     mounted := mounted s;
     window_initializeDiroWidget := window_initializeDiroWidget s;
     now := now s; timers := v; nextTimerId := nextTimerId s;
     log := log s |}.

Definition with_nextTimerId (v : N) (s : State) : State :=
  {| urn := urn s; containerKey := containerKey s; containerRef := containerRef s;
     widgetInstance := widgetInstance s; isWidgetLoaded := isWidgetLoaded s;
     hasInitialized := hasInitialized s; effectTimer := effectTimer s;
     mounted := mounted s;
     window_initializeDiroWidget := window_initializeDiroWidget s;
     now := now s; timers := timers s; nextTimerId := v;
     log := log s |}.

Definition with_log (v : list LogEntry) (s : State) : State :=
  {| urn := urn s; containerKey := containerKey s; containerRef := containerRef s;
     widgetInstance := widgetInstance s; isWidgetLoaded := isWidgetLoaded s;
     hasInitialized := hasInitialized s; effectTimer := effectTimer s;
     mounted := mounted s;
     window_initializeDiroWidget := window_initializeDiroWidget s;
     now := now s; timers := timers s; nextTimerId := nextTimerId s;
     log := v |}.

Definition emit (e : LogEntry) (s : State) : State :=
  with_log (log s ++ [e]) s.

(** ** Browser timers

    [setTimeout] and [setInterval] draw their ids from one pool, and
    [clearTimeout]/[clearInterval] cancel either kind. *)

Definition setTimer (delay : N) (per : option N) (c : Callback) (s : State)
  : N * State :=
  let id := nextTimerId s in
  let t := {| tid := id; due := now s + delay; period := per; cb := c |} in
  (id, with_nextTimerId (id + 1) (with_timers (timers s ++ [t]) s)).

Definition setTimeout (c : Callback) (delay : N) (s : State) : N * State :=
  setTimer delay None c s.

Definition setInterval (c : Callback) (delay : N) (s : State) : N * State :=
  setTimer delay (Some delay) c s.

Definition clearTimer (id : N) (s : State) : State :=
  with_timers (filter (fun t => negb (tid t =? id)) (timers s)) s.

Definition pending (id : N) (s : State) : bool :=
  existsb (fun t => tid t =? id) (timers s).

(** ** The component *)

(** [`${containerKey}`]: the decimal rendering of a number. *)
Definition string_of_N (n : N) : string :=
  NilEmpty.string_of_uint (N.to_uint n).

Definition url_prefix : string :=
  "https://verification.diro.io/?buttonid=O.c117bd44-8cfa-42df-99df-c4ad2ba6c6f5-Z6Jc&trackid=".

(** Lines 129-131.  [urn ? a : b] takes [b] for [undefined] and for the empty
    string, the two falsy values of an optional string. *)
Definition makeTargetUrl (u : option string) : string :=
  match u with
  | Some EmptyString => url_prefix
  | Some v => (url_prefix ++ v)%string
  | None => url_prefix
  end.

(** Lines 139-154: the options object passed to the provider. *)
Definition widgetOptions (url : string) : WidgetOptions :=
  {| targetUrl := url;
     allowRedirection := true;
     buttonText := "Start verification";
     openWith := "sametab";
     containerStyles :=
       {| backgroundColor := "#ffffff"; padding := "20px";
          cs_borderRadius := "12px" |};
     buttonStyles :=
       {| fontSize := "16px"; bs_borderRadius := "12px"; width := "webkit" |} |}.

(** [containerRef.current.innerHTML = ""], guarded by [if (containerRef.current)]. *)
Definition clearContainer (c : ContainerRef) : ContainerRef :=
  match c with
  | Some _ => Some []
  | None => None
  end.

(** Lines 157-164: the handle the component builds for itself. *)
Definition simplifiedInstance : WidgetInstance :=
  {| update := fun _ c => (c, None);
     destroy := Some (fun c => (clearContainer c, None)) |}.

(** Lines 63-78. *)
Definition cleanup (s : State) : State :=
  let s1 :=
    match widgetInstance s with
    | Some w =>
        match destroy w with
        | Some d =>
            let '(c, thrown) := d (containerRef s) in
            let s' := emit DestroyCalled (with_containerRef c s) in
            let s'' :=
              match thrown with
              | Some e => emit (ConsoleError "Error destroying widget:" e) s'
              | None => s'
              end in
            with_isWidgetLoaded false (with_widgetInstance None s'')
        | None => s
        end
    | None => s
    end in
  with_containerRef (clearContainer (containerRef s1)) s1.

(** Lines 48-52.  The second component is the exception that reaches the
    holder: [updateWidget] has no [try]. *)
Definition updateWidget (data : JsValue) (s : State) : State * option Error :=
  match widgetInstance s with
  | Some w =>
      let '(c, thrown) := update w data (containerRef s) in
      (with_containerRef c s, thrown)
  | None => (s, None)
  end.

(** Lines 117-172, in render [r].  Everything after the first line is inside
    the [try]; the only call that can throw is the provider's. *)
Definition initializeWidget (r : Render) (s : State) : State :=
  match containerRef s with
  | None => s
  | Some _ =>
      let widgetContainer :=
        ("diro-widget-inner-" ++ string_of_N (r_key r))%string in
      let s1 :=
        with_containerRef
          (Some [ {| el_id := widgetContainer; el_inner := EmptyString |} ]) s in
      let url := makeTargetUrl (r_urn r) in
      match window_initializeDiroWidget s1 with
      | None => emit (ConsoleErrorMsg "initializeDiroWidget is not available") s1
      | Some p =>
          let opts := widgetOptions url in
          let s2 := emit (ProviderCalled widgetContainer opts) s1 in
          match p widgetContainer opts with
          | Injected m =>
              let s3 :=
                with_containerRef
                  (Some [ {| el_id := widgetContainer; el_inner := m |} ]) s2 in
              with_isWidgetLoaded true
                (with_widgetInstance (Some simplifiedInstance) s3)
          | Raised e =>
              with_isWidgetLoaded false
                (with_hasInitialized false
                   (emit (ConsoleError "Error initializing Diro widget:" e) s2))
          end
      end
  end.

(** Lines 84-110, in render [r].  The second component is the function the
    source returns on the polling path: it would cancel the two timers whose
    ids it holds. *)
Definition initializeWidgetProcess (r : Render) (s : State)
  : State * option (N * N) :=
  if hasInitialized s then (s, None)
  else
    match window_initializeDiroWidget s with
    | Some _ => (with_hasInitialized true (initializeWidget r s), None)
    | None =>
        let '(checkInterval, s1) := setInterval (CheckIntervalCb r) 200 s in
        let '(timeoutId, s2) := setTimeout (TimeoutCb checkInterval) 10000 s1 in
        (s2, Some (checkInterval, timeoutId))
    end.

(** Lines 105-108: the returned canceller, were it ever called. *)
Definition runCanceller (c : N * N) (s : State) : State :=
  clearTimer (snd c) (clearTimer (fst c) s).

(** The render whose closures the imperative handle and the effects hold. *)
Definition currentRender (s : State) : Render :=
  {| r_key := containerKey s; r_urn := urn s |}.

(** Lines 53-60.  [initializeWidgetProcess] is the one of the render in which
    the handle was created, that is before [setContainerKey] takes effect. *)
Definition reinitialize (s : State) : State :=
  let r := currentRender s in
  let s1 := cleanup s in
  let s2 := with_containerKey (containerKey s1 + 1) s1 in
  let s3 := with_hasInitialized false s2 in
  snd (setTimeout (ReinitDelayCb r) 100 s3).

(** What React does once [containerKey] has changed: the container [div],
    keyed by [containerKey], is replaced by a fresh one, and the effect of
    lines 112-115 runs its cleanup and then itself. *)
Definition commitRender (s : State) : State :=
  let s1 := with_containerRef (Some []) s in
  let s2 := clearTimer (effectTimer s1) s1 in
  let '(timer, s3) := setTimeout (MountDelayCb (currentRender s2)) 300 s2 in
  with_effectTimer timer s3.

(** The first commit: both effects run on a state with empty hooks. *)
Definition mount (u : option string) (p : option Provider) : State :=
  let s0 :=
    {| urn := u; containerKey := 0; containerRef := Some [];
       widgetInstance := None; isWidgetLoaded := false;
       hasInitialized := false; effectTimer := 0; mounted := true;
       window_initializeDiroWidget := p;
       now := 0; timers := []; nextTimerId := 1; log := [] |} in
  let '(timer, s1) := setTimeout (MountDelayCb (currentRender s0)) 300 s0 in
  with_effectTimer timer s1.

(** Unmounting runs the cleanups of the two effects: [cleanup] (lines 80-82)
    and [clearTimeout(timer)] (line 114).  Whether React detaches
    [containerRef] before or after them depends on its version, hence
    [detachFirst]. *)
Definition unmount (detachFirst : bool) (s : State) : State :=
  let s0 := if detachFirst then with_containerRef None s else s in
  let s1 := cleanup s0 in
  let s2 := clearTimer (effectTimer s1) s1 in
  with_mounted false (with_containerRef None s2).

(** ** The event loop *)

(** The body of a timer callback. *)
Definition runCallback (t : Timer) (s : State) : State :=
  match cb t with
  | MountDelayCb r => fst (initializeWidgetProcess r s)
  | ReinitDelayCb r => fst (initializeWidgetProcess r s)
  | CheckIntervalCb r =>
      match window_initializeDiroWidget s with
      | Some _ =>
          clearTimer (tid t) (with_hasInitialized true (initializeWidget r s))
      | None => s
      end
  | TimeoutCb checkInterval =>
      emit (ConsoleWarn "Failed to initialize widget after timeout")
        (clearTimer checkInterval s)
  end.

(** A one-shot timer leaves the queue when it fires; an interval is put back
    one period later, before its callback runs. *)
Definition reschedule (t : Timer) (l : list Timer) : list Timer :=
  match period t with
  | None => filter (fun u => negb (tid u =? tid t)) l
  | Some p =>
      map (fun u =>
             if tid u =? tid t
             then {| tid := tid u; due := due u + p; period := period u;
                     cb := cb u |}
             else u) l
  end.

Definition fireTimer (t : Timer) (s : State) : State :=
  let s1 := with_now (N.max (now s) (due t)) s in
  runCallback t (with_timers (reschedule t (timers s1)) s1).

Definition findTimer (id : N) (s : State) : option Timer :=
  find (fun t => tid t =? id) (timers s).

(** No pending timer is due before [d]. *)
Definition earliest (d : N) (s : State) : bool :=
  forallb (fun u => d <=? due u) (timers s).

Inductive Event :=
| EvElapse (dt : N)                      (* time passes, no timer is due *)
| EvTimer (id : N)                       (* the timer [id] fires *)
| EvSetProvider (p : option Provider)    (* the external script (un)defines the global *)
| EvProps (u : option string)            (* the host re-renders with another urn *)
| EvUpdateWidget (data : JsValue)        (* holder: ref.updateWidget(data) *)
| EvReinitialize                         (* holder: ref.reinitialize() *)
| EvUnmount (detachFirst : bool).

(** One turn of the event loop; [None] when the event cannot happen in [s]. *)
Definition step (ev : Event) (s : State) : option State :=
  match ev with
  | EvElapse dt =>
      if earliest (now s + dt) s then Some (with_now (now s + dt) s) else None
  | EvTimer id =>
      match findTimer id s with
      | Some t => if earliest (due t) s then Some (fireTimer t s) else None
      | None => None
      end
  | EvSetProvider p => Some (with_provider p s)
  | EvProps u => if mounted s then Some (with_urn u s) else None
  | EvUpdateWidget data =>
      if mounted s then Some (fst (updateWidget data s)) else None
  | EvReinitialize =>
      if mounted s then Some (commitRender (reinitialize s)) else None
  | EvUnmount detachFirst =>
      if mounted s then Some (unmount detachFirst s) else None
  end.

Fixpoint run (evs : list Event) (s : State) : option State :=
  match evs with
  | [] => Some s
  | ev :: evs' =>
      match step ev s with
      | Some s' => run evs' s'
      | None => None
      end
  end.

(** The states a component instance can be in. *)
Definition reachable (s : State) : Prop :=
  exists u p evs, run evs (mount u p) = Some s.

(** ** Example inputs *)

Definition okProvider : Provider := fun _ _ => Injected "<button>Start verification</button>".

Definition failingProvider : Provider := fun _ _ => Raised "provider failure".

(** A handle whose [destroy] throws after it has emptied nothing. *)
Definition brokenInstance : WidgetInstance :=
  {| update := fun _ c => (c, None);
     destroy := Some (fun c => (c, Some "destroy failure")) |}.

(** The state a run ends in; the start state when the run is impossible. *)
Definition after (evs : list Event) (s : State) : State :=
  match run evs s with
  | Some s' => s'
  | None => s
  end.

(** Mounted with the provider present, 300 ms later: the widget is loaded. *)
Definition loadedState : State :=
  after [EvTimer 1] (mount (Some "abc123") (Some okProvider)).

(** The loaded state, its handle replaced by one whose [destroy] throws. *)
Definition brokenState : State :=
  with_widgetInstance (Some brokenInstance) loadedState.

(** The timer [reinitialize] sets in state [s]. *)
Definition reinitTimer (s : State) : Timer :=
  {| tid := nextTimerId s; due := now s + 100; period := None;
     cb := ReinitDelayCb (currentRender s) |}.

(** Mounted with a provider that throws, 300 ms later. *)
Definition failedState : State :=
  after [EvTimer 1] (mount (Some "abc123") (Some failingProvider)).

(** Polling has begun, then the component is unmounted. *)
Definition unmountedPolling (detachFirst : bool) : State :=
  after [EvTimer 1; EvUnmount detachFirst] (mount None None).

(** [reinitialize] is called 50 ms after mount, the component is unmounted
    20 ms later. *)
Definition unmountedReinit (detachFirst : bool) : State :=
  after [EvElapse 50; EvReinitialize; EvElapse 20; EvUnmount detachFirst]
    (mount None None).

(** Polling has begun, the script loads, the next poll tick succeeds. *)
Definition polledState : State :=
  after [EvTimer 1; EvElapse 50; EvSetProvider (Some okProvider); EvTimer 2]
    (mount None None).

(** The poll interval ticks [n] times. *)
Definition pollTicks (n : nat) (id : N) : list Event :=
  repeat (EvTimer id) n.

(** [s] ends with [suf]. *)
Definition ends_with (s suf : string) : Prop :=
  exists pre, s = (pre ++ suf)%string.

Definition base_url : string :=
  "https://verification.diro.io/?buttonid=O.c117bd44-8cfa-42df-99df-c4ad2ba6c6f5-Z6Jc".

(** The tracking identifier as it appears in the URL. *)
Definition trackid (u : option string) : string :=
  match u with
  | Some v => v
  | None => EmptyString
  end.

(** *** Invariants of the reachable states *)

(** The handle slot is empty or holds the component's own handle, and the
    loaded flag is only set while the slot is full. *)
Definition handle_inv (s : State) : Prop :=
  (widgetInstance s = None \/ widgetInstance s = Some simplifiedInstance) /\
  (isWidgetLoaded s = true -> widgetInstance s = Some simplifiedInstance).

(** The states a run passes through, the first and the last included. *)
Fixpoint states (evs : list Event) (s : State) : list State :=
  s :: match evs with
       | [] => []
       | ev :: evs' =>
           match step ev s with
           | Some s' => states evs' s'
           | None => []
           end
       end.

(** No state of the run is loaded: no initialize attempt has succeeded. *)
Definition never_loaded (evs : list Event) (s : State) : Prop :=
  forallb (fun x => negb (isWidgetLoaded x)) (states evs s) = true.

Definition is_provider_call (e : LogEntry) : bool :=
  match e with
  | ProviderCalled _ _ => true
  | _ => false
  end.

(** How often the provider has been called so far. *)
Definition provider_calls (s : State) : nat :=
  List.length (filter is_provider_call (log s)).

Definition is_destroy_call (e : LogEntry) : bool :=
  match e with
  | DestroyCalled => true
  | _ => false
  end.

(** How often a handle's [destroy] has been called so far. *)
Definition destroy_calls (s : State) : nat :=
  List.length (filter is_destroy_call (log s)).

Definition is_timeout (t : Timer) : Prop :=
  exists ci, cb t = TimeoutCb ci.

Definition is_poll (t : Timer) : Prop :=
  exists r, cb t = CheckIntervalCb r.

Definition is_reinitialize (ev : Event) : bool :=
  match ev with
  | EvReinitialize => true
  | _ => false
  end.

(** A run in which the holder never calls [reinitialize]. *)
Definition no_reinitialize (evs : list Event) : Prop :=
  forallb (fun ev => negb (is_reinitialize ev)) evs = true.


Definition is_mount_delay (t : Timer) : Prop :=
  exists r, cb t = MountDelayCb r.

(** The life of a component whose holder never calls [reinitialize]: it
    waits for the mount delay, or it polls with one interval [ci] and the
    timeouts that will cancel it, or its only attempt is over. *)
Definition single_attempt (s : State) : Prop :=
  (isWidgetLoaded s = false /\
   (timers s = [] \/
    exists t, timers s = [t] /\ is_mount_delay t /\ period t = None)) \/
  (exists ci, isWidgetLoaded s = false /\
     forall t, In t (timers s) ->
       (tid t = ci /\ is_poll t) \/ (tid t <> ci /\ cb t = TimeoutCb ci)) \/
  (forall t, In t (timers s) -> is_timeout t).




(** Every timer of [l'] is a timer of [l], up to its due time. *)
Definition timers_sub (l' l : list Timer) : Prop :=
  forall u, In u l' -> exists u0, In u0 l /\ tid u = tid u0 /\ cb u = cb u0.





(** Mounted without provider, 300 ms later: the component polls. *)
Definition pollingStart : State :=
  after [EvTimer 1] (mount None None).

(** The timer of the first [containerKey] effect. *)
Definition mountTimer (u : option string) : Timer :=
  {| tid := 1; due := 300; period := None;
     cb := MountDelayCb {| r_key := 0; r_urn := u |} |}.

(** The poll interval of the first attempt, before its first tick. *)
Definition firstPoll : Timer :=
  {| tid := 2; due := 500; period := Some 200;
     cb := CheckIntervalCb {| r_key := 0; r_urn := None |} |}.

(** The timer the [containerKey] effect sets once [reinitialize] has been
    called in state [s]. *)
Definition remountTimer (s : State) : Timer :=
  {| tid := nextTimerId s + 1; due := now s + 300; period := None;
     cb := MountDelayCb {| r_key := containerKey s + 1; r_urn := urn s |} |}.

(** The holder calls [reinitialize] once, right after mount, while the
    provider is absent; both queued attempts start to poll; the script
    loads; each poll interval ticks. *)
Definition reinitializedOnce : State :=
  after [EvReinitialize; EvTimer 2; EvTimer 3; EvSetProvider (Some okProvider);
         EvTimer 4; EvTimer 6]
    (mount None None).

(** ** The rendered view *)

(** Lines 174-188: what the component returns.  [placeholder] says whether
    the "Loading Diro widget..." [div] is part of the output; the other
    fields are the [key], [id] and [style.display] of the container [div]. *)
Record View := {
  placeholder : bool;
  container_key : string;
  container_id : string;
  container_display : string
}.

Definition render (s : State) : View :=
  {| placeholder := negb (isWidgetLoaded s);
     container_key := ("diro-container-" ++ string_of_N (containerKey s))%string;
     container_id :=
       ("diro-widget-container-" ++ string_of_N (containerKey s))%string;
     container_display := if isWidgetLoaded s then "block" else "none" |}.

(** Line 126: the id of the child [div] created in generation [k]. *)
Definition inner_id (k : N) : string :=
  ("diro-widget-inner-" ++ string_of_N k)%string.

(** The child [div] of generation [k] with markup [m] inside. *)
Definition widgetChild (k : N) (m : string) : Element :=
  {| el_id := inner_id k; el_inner := m |}.

(** *** Further invariants and measures *)

(** How often the holder calls [reinitialize] in a run. *)
Definition count_reinitialize (evs : list Event) : nat :=
  List.length (filter is_reinitialize evs).

Definition is_unmount (ev : Event) : bool :=
  match ev with
  | EvUnmount _ => true
  | _ => false
  end.

(** A run in which the component is not unmounted. *)
Definition no_unmount (evs : list Event) : Prop :=
  forallb (fun ev => negb (is_unmount ev)) evs = true.

Definition handle_count (s : State) : nat :=
  match widgetInstance s with
  | Some _ => 1
  | None => 0
  end.

Definition is_error_msg (e : LogEntry) : bool :=
  match e with
  | ConsoleErrorMsg _ => true
  | _ => false
  end.

(** How often line 135 has logged that the provider is not available. *)
Definition not_available_errors (s : State) : nat :=
  List.length (filter is_error_msg (log s)).

(** While the container is displayed it holds one child, the [div] that
    [initializeWidget] gave to the provider. *)
Definition shows_widget (s : State) : Prop :=
  isWidgetLoaded s = true ->
  exists k m, containerRef s = Some [widgetChild k m].

(** A provider call made with the options of lines 139-154. *)
Definition fixed_call (e : LogEntry) : Prop :=
  match e with
  | ProviderCalled elem opts =>
      exists k u, elem = inner_id k /\ opts = widgetOptions (makeTargetUrl u)
  | _ => True
  end.

(** A timer queue [l] with next id [n] and effect timer [e] is well formed:
    a pending timer is determined by its id, ids are below the next id, as
    is the id of the effect's timer; a timeout callback holds the id of an
    older timer, and if that timer is still pending it is a poll interval. *)
Definition queue_wf (l : list Timer) (n e : N) : Prop :=
  (forall t u, In t l -> In u l -> tid t = tid u -> t = u) /\
  (forall t, In t l -> tid t < n) /\
  e < n /\
  (forall t ci, In t l -> cb t = TimeoutCb ci ->
     ci < tid t /\ forall u, In u l -> tid u = ci -> is_poll u).

Definition timers_wf (s : State) : Prop :=
  queue_wf (timers s) (nextTimerId s) (effectTimer s).

(** An unmounted component: no container, nothing loaded. *)
Definition inert (s : State) : Prop :=
  mounted s = false /\ containerRef s = None /\ isWidgetLoaded s = false.

(** The widget is loaded and no pending timer can touch it. *)
Definition settled (s : State) : Prop :=
  isWidgetLoaded s = true /\
  widgetInstance s = Some simplifiedInstance /\
  forall t, In t (timers s) -> is_timeout t.

(** No timer is due before [d], and if the provider has been called then
    it is [d] or later. *)
Definition not_before (d : N) (s : State) : Prop :=
  (forall t, In t (timers s) -> d <= due t) /\
  (provider_calls s <> 0%nat -> d <= now s).

(** Without [reinitialize]: the provider has not been called while the
    single attempt is under way, and once at most when it is over. *)
Definition called_once (s : State) : Prop :=
  (provider_calls s = 0%nat /\ single_attempt s) \/
  ((provider_calls s <= 1)%nat /\ forall t, In t (timers s) -> is_timeout t).

(** The state in which a timer callback runs: the clock is at the timer's
    due time and the timer is out of the queue or rescheduled. *)
Definition atFire (t : Timer) (s : State) : State :=
  with_timers (reschedule t (timers s)) (with_now (N.max (now s) (due t)) s).

(** A successful [initializeWidget] of generation [k]: the state it leaves. *)
Definition widgetLoaded (r : Render) (m : string) (s : State) : State :=
  with_isWidgetLoaded true
    (with_widgetInstance (Some simplifiedInstance)
       (with_containerRef (Some [widgetChild (r_key r) m])
          (emit (ProviderCalled (inner_id (r_key r))
                   (widgetOptions (makeTargetUrl (r_urn r))))
             (with_containerRef (Some [widgetChild (r_key r) EmptyString]) s)))).

(** A failed [initializeWidget]: the state the [catch] leaves. *)
Definition widgetFailed (r : Render) (e : Error) (s : State) : State :=
  with_isWidgetLoaded false
    (with_hasInitialized false
       (emit (ConsoleError "Error initializing Diro widget:" e)
          (emit (ProviderCalled (inner_id (r_key r))
                   (widgetOptions (makeTargetUrl (r_urn r))))
             (with_containerRef (Some [widgetChild (r_key r) EmptyString]) s)))).

(** The polling path of [initializeWidgetProcess]: the state it leaves. *)
Definition pollStarted (r : Render) (s : State) : State :=
  snd (setTimeout (TimeoutCb (nextTimerId s)) 10000
         (snd (setInterval (CheckIntervalCb r) 200 s))).

(** What one turn of the event loop, from [s] to [s'], may add to the log
    ([l]) and do to the handle slot: a timer callback may call the provider,
    with or without success, or warn; [reinitialize] and unmount may
    destroy the handle; nothing else logs or touches the slot. *)
Definition turn_effect (ev : Event) (s s' : State) (l : list LogEntry) : Prop :=
  match ev with
  | EvTimer _ =>
      (l = [] /\ widgetInstance s' = widgetInstance s) \/
      (exists k u,
          l = [ProviderCalled (inner_id k) (widgetOptions (makeTargetUrl u))] /\
          widgetInstance s' = Some simplifiedInstance) \/
      (exists k u e,
          l = [ProviderCalled (inner_id k) (widgetOptions (makeTargetUrl u));
               ConsoleError "Error initializing Diro widget:" e] /\
          widgetInstance s' = widgetInstance s) \/
      (l = [ConsoleWarn "Failed to initialize widget after timeout"] /\
       widgetInstance s' = widgetInstance s)
  | EvReinitialize | EvUnmount _ =>
      (l = [] /\ widgetInstance s' = widgetInstance s) \/
      (widgetInstance s <> None /\ widgetInstance s' = None /\
       (l = [DestroyCalled] \/
        exists e, l = [DestroyCalled; ConsoleError "Error destroying widget:" e]))
  | _ => l = [] /\ widgetInstance s' = widgetInstance s
  end.

(** The cases of [turn_effect], from a proof [H] of
    [exists l, log s' = log s ++ l /\ turn_effect ev s s' l]. *)
Ltac effect_cases H ev :=
  let l := fresh "l" in
  let Hlog := fresh "Hlog" in
  let Heff := fresh "Heff" in
  destruct H as (l & Hlog & Heff);
  destruct ev; cbn [turn_effect] in Heff;
  repeat match goal with
         | H' : _ \/ _ |- _ => destruct H'
         | H' : _ /\ _ |- _ => destruct H'
         | H' : exists _, _ |- _ => destruct H'
         end;
  subst l.

(** A measure of the log after the log has grown. *)
Ltac count_log Hlog :=
  unfold provider_calls, destroy_calls, not_available_errors, handle_count in *;
  rewrite Hlog, ?filter_app, ?length_app; cbn [filter is_provider_call
    is_destroy_call is_error_msg List.length app].

(** One turn of the event loop, taken apart. *)
Ltac step_cases Hstep ev :=
  destruct ev as [dt|id|p|u|data| |b]; simpl in Hstep;
  [ destruct (earliest _ _); [|discriminate]; injection Hstep as <-
  | let t := fresh "t" in
    let Hf := fresh "Hf" in
    destruct (findTimer _ _) as [t|] eqn:Hf; [|discriminate];
    destruct (earliest _ _); [|discriminate]; injection Hstep as <-
  | injection Hstep as <-
  | let Hm := fresh "Hm" in
    destruct (mounted _) eqn:Hm; [|discriminate]; injection Hstep as <-
  | let Hm := fresh "Hm" in
    destruct (mounted _) eqn:Hm; [|discriminate]; injection Hstep as <-
  | let Hm := fresh "Hm" in
    destruct (mounted _) eqn:Hm; [|discriminate]; injection Hstep as <-
  | let Hm := fresh "Hm" in
    destruct (mounted _) eqn:Hm; [|discriminate]; injection Hstep as <- ].

(** ** Basic facts *)

Lemma reachable_mount u p : reachable (mount u p).
Proof. exists u, p, []. reflexivity. Qed.

Lemma reachable_step ev s s' :
  reachable s -> step ev s = Some s' -> reachable s'.
Proof.
  intros (u & p & evs & Hrun) Hstep.
  exists u, p, (evs ++ [ev]).
  revert Hrun. generalize (mount u p) as s0.
  induction evs as [|e evs IH]; simpl; intros s0 Hrun.
  - injection Hrun as ->. now rewrite Hstep.
  - destruct (step e s0); [now apply IH | discriminate].
Qed.

(** Induction along a run. *)
Lemma run_invariant (P : State -> Prop) :
  (forall ev s s', P s -> step ev s = Some s' -> P s') ->
  forall evs s s', P s -> run evs s = Some s' -> P s'.
Proof.
  intros Hstep. induction evs as [|e evs IH]; simpl; intros s s' HP Hrun.
  - now injection Hrun as <-.
  - destruct (step e s) as [s1|] eqn:E; [|discriminate].
    eapply IH; [|exact Hrun]. eapply Hstep; eauto.
Qed.

Lemma reachable_invariant (P : State -> Prop) :
  (forall u p, P (mount u p)) ->
  (forall ev s s', P s -> step ev s = Some s' -> P s') ->
  forall s, reachable s -> P s.
Proof.
  intros Hinit Hstep s (u & p & evs & Hrun).
  eapply run_invariant; eauto.
Qed.

(** [with_x (x s) s] is [s]: records have no definitional eta. *)
Lemma with_containerRef_same s : with_containerRef (containerRef s) s = s.
Proof. now destruct s. Qed.

Lemma clearContainer_idem c : clearContainer (clearContainer c) = clearContainer c.
Proof. now destruct c. Qed.

(** *** The target URL *)

Lemma makeTargetUrl_eq u :
  makeTargetUrl u = (base_url ++ "&trackid=" ++ trackid u)%string.
Proof. destruct u as [[|a v]|]; reflexivity. Qed.

(** C6. For every tracking identifier the URL handed to the provider is the
    fixed base followed by [&trackid=] and the identifier; the identifier
    [abc123] gives a URL that ends with [trackid=abc123], an absent identifier
    one that ends with [trackid=]. *)
Theorem target_url_construction :
  (forall v : string,
      makeTargetUrl (Some v) = (base_url ++ "&trackid=" ++ v)%string) /\
  makeTargetUrl None = (base_url ++ "&trackid=")%string /\
  ends_with (makeTargetUrl (Some "abc123")) "trackid=abc123" /\
  ends_with (makeTargetUrl None) "trackid=" /\
  (forall r s p c,
      containerRef s = Some c ->
      window_initializeDiroWidget s = Some p ->
      exists elem opts rest,
        log (initializeWidget r s) = log s ++ ProviderCalled elem opts :: rest /\
        targetUrl opts = (base_url ++ "&trackid=" ++ trackid (r_urn r))%string).
Proof.
  split; [|split; [|split; [|split]]].
  - intros v. apply (makeTargetUrl_eq (Some v)).
  - reflexivity.
  - exists (base_url ++ "&")%string. reflexivity.
  - exists (base_url ++ "&")%string. reflexivity.
  - intros r s p c Hc Hp. unfold initializeWidget. rewrite Hc. simpl.
    rewrite Hp.
    eexists _, _.
    destruct (p _ _) as [m|e]; simpl.
    + exists []. split; [reflexivity|]. apply makeTargetUrl_eq.
    + eexists. rewrite <- app_assoc. simpl.
      split; [reflexivity|]. apply makeTargetUrl_eq.
Qed.

Lemma target_url_construction_witness :
  exists elem opts rest,
    log (initializeWidget {| r_key := 0; r_urn := Some "abc123" |}
           (mount (Some "abc123") (Some okProvider))) =
      ProviderCalled elem opts :: rest /\
    targetUrl opts = (base_url ++ "&trackid=abc123")%string.
Proof.
  destruct (proj2 (proj2 (proj2 (proj2 target_url_construction)))
              {| r_key := 0; r_urn := Some "abc123" |}
              (mount (Some "abc123") (Some okProvider)) okProvider []
              eq_refl eq_refl) as (elem & opts & rest & Hlog & Hurl).
  exists elem, opts, rest. split; [exact Hlog|exact Hurl].
Defined.

(** *** cleanup *)

Lemma cleanup_idempotent s : cleanup (cleanup s) = cleanup s.
Proof.
  destruct s as [u k c w l h e m p n ts nt lg]. unfold cleanup. simpl.
  destruct w as [[up [d|]]|]; simpl.
  - destruct (d c) as [c' [err|]]; simpl; now rewrite clearContainer_idem.
  - now rewrite clearContainer_idem.
  - now rewrite clearContainer_idem.
Qed.

Lemma cleanup_container_cleared s :
  containerRef (cleanup s) = None \/ containerRef (cleanup s) = Some [].
Proof.
  unfold cleanup. simpl.
  match goal with |- context [clearContainer ?c] => destruct c end; simpl; auto.
Qed.

Lemma cleanup_hasInitialized s : hasInitialized (cleanup s) = hasInitialized s.
Proof.
  unfold cleanup. destruct (widgetInstance s) as [[up [d|]]|]; simpl; try reflexivity.
  destruct (d (containerRef s)) as [c' [err|]]; reflexivity.
Qed.

Lemma cleanup_timers s : timers (cleanup s) = timers s.
Proof.
  unfold cleanup. destruct (widgetInstance s) as [[up [d|]]|]; simpl; try reflexivity.
  destruct (d (containerRef s)) as [c' [err|]]; reflexivity.
Qed.

Lemma cleanup_no_handle s :
  widgetInstance s = None ->
  cleanup s = with_containerRef (clearContainer (containerRef s)) s.
Proof. intros H. unfold cleanup. now rewrite H. Qed.

Lemma cleanup_destroys s w d :
  widgetInstance s = Some w -> destroy w = Some d ->
  widgetInstance (cleanup s) = None /\
  isWidgetLoaded (cleanup s) = false /\
  containerRef (cleanup s) = clearContainer (fst (d (containerRef s))) /\
  log (cleanup s) =
    log s ++ DestroyCalled ::
      match snd (d (containerRef s)) with
      | Some e => [ConsoleError "Error destroying widget:" e]
      | None => []
      end.
Proof.
  intros Hw Hd. unfold cleanup. rewrite Hw, Hd.
  destruct (d (containerRef s)) as [c' [err|]]; simpl;
    rewrite <- ?app_assoc; auto.
Qed.

(** *** The handle slot *)

Lemma handle_inv_frame s s' :
  widgetInstance s' = widgetInstance s ->
  isWidgetLoaded s' = isWidgetLoaded s ->
  handle_inv s -> handle_inv s'.
Proof.
  intros Hw Hl (H1 & H2). unfold handle_inv. rewrite Hw, Hl. now split.
Qed.

Lemma handle_inv_cleanup s : handle_inv s -> handle_inv (cleanup s).
Proof.
  intros (H1 & H2). unfold handle_inv, cleanup.
  destruct (widgetInstance s) as [w|] eqn:Hw; simpl.
  - destruct (destroy w) as [d|] eqn:Hd; simpl.
    + destruct (d (containerRef s)) as [c' [err|]]; simpl;
        split; auto; discriminate.
    + rewrite Hw. now split.
  - rewrite Hw. now split.
Qed.

Lemma handle_inv_initializeWidget r s :
  handle_inv s -> handle_inv (initializeWidget r s).
Proof.
  intros (H1 & H2). unfold handle_inv, initializeWidget.
  destruct (containerRef s) as [c|]; [|now split]. simpl.
  destruct (window_initializeDiroWidget s) as [p|]; simpl; [|now split].
  destruct (p _ _) as [m|e]; simpl; split; auto; discriminate.
Qed.

Lemma handle_inv_initializeWidgetProcess r s :
  handle_inv s -> handle_inv (fst (initializeWidgetProcess r s)).
Proof.
  intros H. unfold initializeWidgetProcess.
  destruct (hasInitialized s); [exact H|].
  destruct (window_initializeDiroWidget s); simpl.
  - eapply handle_inv_frame; [| |apply (handle_inv_initializeWidget r s H)];
      reflexivity.
  - eapply handle_inv_frame; [| |exact H]; reflexivity.
Qed.

Lemma handle_inv_fireTimer t s : handle_inv s -> handle_inv (fireTimer t s).
Proof.
  intros H. unfold fireTimer, runCallback.
  set (s1 := with_timers _ _).
  assert (H1 : handle_inv s1)
    by (eapply handle_inv_frame; [| |exact H]; reflexivity).
  clearbody s1.
  destruct (cb t) as [r|r|r|ci].
  - now apply handle_inv_initializeWidgetProcess.
  - now apply handle_inv_initializeWidgetProcess.
  - destruct (window_initializeDiroWidget s1); [|exact H1].
    eapply handle_inv_frame;
      [| |apply (handle_inv_initializeWidget r s1 H1)]; reflexivity.
  - eapply handle_inv_frame; [| |exact H1]; reflexivity.
Qed.

Lemma handle_inv_updateWidget data s :
  handle_inv s -> handle_inv (fst (updateWidget data s)).
Proof.
  intros H. unfold updateWidget.
  destruct (widgetInstance s) as [w|]; [|exact H].
  destruct (update w data (containerRef s)) as [c thrown]. simpl.
  eapply handle_inv_frame; [| |exact H]; reflexivity.
Qed.

Lemma handle_inv_reinitialize s : handle_inv s -> handle_inv (reinitialize s).
Proof.
  intros H. unfold reinitialize.
  eapply handle_inv_frame; [| |apply (handle_inv_cleanup s H)]; reflexivity.
Qed.

Lemma handle_inv_commitRender s : handle_inv s -> handle_inv (commitRender s).
Proof.
  intros H. unfold commitRender.
  eapply handle_inv_frame; [| |exact H]; reflexivity.
Qed.

Lemma handle_inv_unmount b s : handle_inv s -> handle_inv (unmount b s).
Proof.
  intros H. unfold unmount.
  set (s0 := if b then _ else _).
  assert (H0 : handle_inv s0)
    by (destruct b; [eapply handle_inv_frame; [| |exact H]; reflexivity | exact H]).
  eapply handle_inv_frame; [| |apply (handle_inv_cleanup s0 H0)]; reflexivity.
Qed.

Lemma handle_inv_step ev s s' :
  handle_inv s -> step ev s = Some s' -> handle_inv s'.
Proof.
  intros H Hstep. destruct ev as [dt|id|p|u|data| |b]; simpl in Hstep.
  - destruct (earliest _ s); [|discriminate]. injection Hstep as <-.
    eapply handle_inv_frame; [| |exact H]; reflexivity.
  - destruct (findTimer id s) as [t|]; [|discriminate].
    destruct (earliest _ s); [|discriminate]. injection Hstep as <-.
    now apply handle_inv_fireTimer.
  - injection Hstep as <-. eapply handle_inv_frame; [| |exact H]; reflexivity.
  - destruct (mounted s); [|discriminate]. injection Hstep as <-.
    eapply handle_inv_frame; [| |exact H]; reflexivity.
  - destruct (mounted s); [|discriminate]. injection Hstep as <-.
    now apply handle_inv_updateWidget.
  - destruct (mounted s); [|discriminate]. injection Hstep as <-.
    now apply handle_inv_commitRender, handle_inv_reinitialize.
  - destruct (mounted s); [|discriminate]. injection Hstep as <-.
    now apply handle_inv_unmount.
Qed.

Lemma reachable_handle_inv s : reachable s -> handle_inv s.
Proof.
  apply reachable_invariant.
  - intros u p. unfold handle_inv. simpl. split; [now left|discriminate].
  - intros ev s0 s'. apply handle_inv_step.
Qed.

(** A handle is stored only by an initialize attempt that succeeds, and
    that attempt sets the loaded flag. *)
Lemma initializeWidget_handle r s :
  isWidgetLoaded (initializeWidget r s) = true \/
  widgetInstance (initializeWidget r s) = widgetInstance s.
Proof.
  unfold initializeWidget. destruct (containerRef s); [|now right]. simpl.
  destruct (window_initializeDiroWidget s) as [p|]; [|now right].
  destruct (p _ _); [now left|now right].
Qed.

Lemma cleanup_no_handle_after s :
  widgetInstance s = None -> widgetInstance (cleanup s) = None.
Proof. intros H. now rewrite (cleanup_no_handle s H). Qed.

Lemma no_handle_fireTimer t s :
  widgetInstance s = None -> isWidgetLoaded (fireTimer t s) = false ->
  widgetInstance (fireTimer t s) = None.
Proof.
  unfold fireTimer, runCallback. set (s1 := with_timers _ _).
  intros Hw. change (widgetInstance s1 = None) in Hw. clearbody s1.
  assert (Hinit : forall r,
             isWidgetLoaded (fst (initializeWidgetProcess r s1)) = false ->
             widgetInstance (fst (initializeWidgetProcess r s1)) = None).
  { intros r. unfold initializeWidgetProcess.
    destruct (hasInitialized s1); [auto|].
    destruct (window_initializeDiroWidget s1); [|auto].
    cbn [fst isWidgetLoaded widgetInstance with_hasInitialized].
    destruct (initializeWidget_handle r s1) as [H|H]; congruence. }
  destruct (cb t) as [r|r|r|ci]; auto.
  destruct (window_initializeDiroWidget s1); [|auto].
  cbn [isWidgetLoaded widgetInstance with_hasInitialized clearTimer with_timers].
  destruct (initializeWidget_handle r s1) as [H|H]; congruence.
Qed.

Lemma no_handle_step ev s s' :
  widgetInstance s = None -> step ev s = Some s' ->
  isWidgetLoaded s' = false -> widgetInstance s' = None.
Proof.
  intros Hw Hstep Hl. destruct ev as [dt|id|p|u|data| |b]; simpl in Hstep.
  - destruct (earliest _ s); [|discriminate]. now injection Hstep as <-.
  - destruct (findTimer id s) as [t|]; [|discriminate].
    destruct (earliest _ s); [|discriminate]. injection Hstep as <-.
    now apply no_handle_fireTimer.
  - now injection Hstep as <-.
  - destruct (mounted s); [|discriminate]. now injection Hstep as <-.
  - destruct (mounted s); [|discriminate]. injection Hstep as <-.
    unfold updateWidget. now rewrite Hw.
  - destruct (mounted s); [|discriminate]. injection Hstep as <-.
    change (widgetInstance (cleanup s) = None).
    now apply cleanup_no_handle_after.
  - destruct (mounted s); [|discriminate]. injection Hstep as <-.
    change (widgetInstance
              (cleanup (if b then with_containerRef None s else s)) = None).
    apply cleanup_no_handle_after. now destruct b.
Qed.

Lemma states_head evs s : exists l, states evs s = s :: l.
Proof. destruct evs; simpl; eauto. Qed.

Lemma no_handle_run evs s s' :
  widgetInstance s = None -> run evs s = Some s' -> never_loaded evs s ->
  widgetInstance s' = None.
Proof.
  unfold never_loaded. revert s.
  induction evs as [|ev evs IH]; simpl; intros s Hw Hrun Hnl.
  - now injection Hrun as <-.
  - destruct (step ev s) as [s1|] eqn:Hstep; [|discriminate].
    apply andb_true_iff in Hnl as [_ Hnl].
    apply (IH s1); auto.
    destruct (states_head evs s1) as (l & Hl). rewrite Hl in Hnl. simpl in Hnl.
    apply andb_true_iff in Hnl as [Hs1 _].
    apply (no_handle_step ev s s1 Hw Hstep).
    now destruct (isWidgetLoaded s1).
Qed.

(** *** updateWidget *)

(** C8. Without a handle [updateWidget] returns normally and leaves the state
    as it is, whatever the payload; with a handle it hands the payload to
    the handle's [update].  There is no handle as long as no initialize
    attempt has succeeded, that is on every run from mount none of whose
    states is loaded. *)
Theorem updateWidget_forwards_or_noop data :
  (forall s, widgetInstance s = None -> updateWidget data s = (s, None)) /\
  (forall s w, widgetInstance s = Some w ->
     updateWidget data s =
     (with_containerRef (fst (update w data (containerRef s))) s,
      snd (update w data (containerRef s)))) /\
  (forall u p evs s,
     run evs (mount u p) = Some s -> never_loaded evs (mount u p) ->
     updateWidget data s = (s, None)).
Proof.
  unfold updateWidget. split; [|split].
  - now intros s ->.
  - intros s w ->. now destruct (update w data (containerRef s)).
  - intros u p evs s Hrun Hnl.
    now rewrite (no_handle_run evs (mount u p) s eq_refl Hrun Hnl).
Qed.

Lemma updateWidget_forwards_or_noop_witness :
  provider_calls failedState = 1%nat /\
  updateWidget (JsStr "payload") failedState = (failedState, None).
Proof.
  split; [vm_compute; reflexivity|].
  apply (proj2 (proj2 (updateWidget_forwards_or_noop (JsStr "payload")))
           (Some "abc123") (Some failingProvider) [EvTimer 1]).
  - vm_compute. reflexivity.
  - vm_compute. reflexivity.
Defined.

(** C10. The handle the component builds has an [update] that does nothing:
    in every state the component can reach, loaded or not, [updateWidget]
    returns normally and changes neither the handle, nor the container, nor
    any other part of the state, for every payload. *)
Theorem updateWidget_has_no_effect s data :
  reachable s -> updateWidget data s = (s, None).
Proof.
  intros Hr. destruct (reachable_handle_inv s Hr) as ([H|H] & _);
    unfold updateWidget; rewrite H; [reflexivity|].
  simpl. now rewrite with_containerRef_same.
Qed.

Lemma updateWidget_has_no_effect_witness :
  widgetInstance loadedState = Some simplifiedInstance /\
  isWidgetLoaded loadedState = true /\
  updateWidget (JsNum 7) loadedState = (loadedState, None).
Proof.
  split; [vm_compute; reflexivity|]. split; [vm_compute; reflexivity|].
  apply (updateWidget_has_no_effect loadedState (JsNum 7)).
  exists (Some "abc123"), (Some okProvider), [EvTimer 1].
  vm_compute. reflexivity.
Defined.

(** *** cleanup, stated *)

(** C9. [cleanup] is idempotent; it leaves the container empty; without a
    handle it does nothing else (no [destroy] is called); with a handle it
    calls [destroy] once, logs what [destroy] throws and empties the
    container all the same; in every reachable state it leaves the component
    not loaded. *)
Theorem cleanup_idempotent_and_safe s :
  cleanup (cleanup s) = cleanup s /\
  (containerRef (cleanup s) = None \/ containerRef (cleanup s) = Some []) /\
  (widgetInstance s = None ->
     cleanup s = with_containerRef (clearContainer (containerRef s)) s /\
     log (cleanup s) = log s) /\
  (forall w d, widgetInstance s = Some w -> destroy w = Some d ->
     widgetInstance (cleanup s) = None /\
     isWidgetLoaded (cleanup s) = false /\
     containerRef (cleanup s) = clearContainer (fst (d (containerRef s))) /\
     log (cleanup s) =
       log s ++ DestroyCalled ::
         match snd (d (containerRef s)) with
         | Some e => [ConsoleError "Error destroying widget:" e]
         | None => []
         end) /\
  (reachable s ->
     isWidgetLoaded (cleanup s) = false /\ widgetInstance (cleanup s) = None).
Proof.
  split; [apply cleanup_idempotent|].
  split; [apply cleanup_container_cleared|].
  split; [|split].
  - intros H. rewrite (cleanup_no_handle s H). now split.
  - intros w d. apply cleanup_destroys.
  - intros Hr. destruct (reachable_handle_inv s Hr) as ([H|H] & H2).
    + rewrite (cleanup_no_handle s H). simpl. split; [|exact H].
      destruct (isWidgetLoaded s); [|reflexivity].
      rewrite H in H2. now specialize (H2 eq_refl).
    + destruct (cleanup_destroys s _ _ H eq_refl) as (Hw & Hl & _). now split.
Qed.

Lemma cleanup_idempotent_and_safe_witness :
  isWidgetLoaded brokenState = true /\
  widgetInstance (cleanup brokenState) = None /\
  isWidgetLoaded (cleanup brokenState) = false /\
  containerRef (cleanup brokenState) = Some [] /\
  log (cleanup brokenState) =
    log brokenState ++
    [DestroyCalled; ConsoleError "Error destroying widget:" "destroy failure"].
Proof.
  split; [vm_compute; reflexivity|].
  assert (Hw0 : widgetInstance brokenState = Some brokenInstance)
    by (vm_compute; reflexivity).
  destruct (proj1 (proj2 (proj2 (proj2 (cleanup_idempotent_and_safe brokenState))))
              brokenInstance (fun c => (c, Some "destroy failure"))
              Hw0 eq_refl) as (Hw & Hl & Hc & Hlog).
  split; [exact Hw|]. split; [exact Hl|]. split; [|exact Hlog].
  rewrite Hc. vm_compute. reflexivity.
Defined.

(** *** reinitialize *)

(** The body of [reinitialize], lines 54-59, in a reachable state: what it
    leaves in the hooks and the one timer it adds to the queue. *)
Lemma reinitialize_body s :
  reachable s ->
  widgetInstance (reinitialize s) = None /\
  isWidgetLoaded (reinitialize s) = false /\
  containerRef (reinitialize s) = clearContainer (containerRef s) /\
  destroy_calls (reinitialize s) =
    (destroy_calls s + match widgetInstance s with Some _ => 1 | None => 0 end)%nat /\
  containerKey (reinitialize s) = containerKey s + 1 /\
  containerKey s < containerKey (reinitialize s) /\
  hasInitialized (reinitialize s) = false /\
  timers (reinitialize s) = timers s ++ [reinitTimer s] /\
  (forall s', runCallback (reinitTimer s) s' =
              fst (initializeWidgetProcess (currentRender s) s')).
Proof.
  intros Hr. destruct (reachable_handle_inv s Hr) as ([H|H] & H2).
  - assert (Hl : isWidgetLoaded s = false).
    { destruct (isWidgetLoaded s); [|reflexivity].
      rewrite H in H2. now specialize (H2 eq_refl). }
    unfold reinitialize. rewrite (cleanup_no_handle s H). simpl.
    rewrite H. repeat split; auto; try lia.
  - unfold reinitialize, cleanup. rewrite H. simpl.
    rewrite clearContainer_idem.
    repeat split; auto; try lia.
    unfold destroy_calls. simpl.
    rewrite filter_app, length_app. simpl. lia.
Qed.

(** The [containerKey] effect answers the new generation with a timer of its
    own: one turn of the event loop after the holder's call, two initialize
    attempts are queued, 100 ms and 300 ms ahead. *)
Remark reinitialize_event_timers s s' :
  step EvReinitialize s = Some s' ->
  timers s' =
    filter (fun t => negb (tid t =? effectTimer s)) (timers s ++ [reinitTimer s]) ++
    [ {| tid := nextTimerId s + 1; due := now s + 300; period := None;
         cb := MountDelayCb {| r_key := containerKey s + 1; r_urn := urn s |} |} ].
Proof.
  simpl. destruct (mounted s); [|discriminate]. intros [= <-].
  unfold commitRender, reinitialize, cleanup.
  destruct (widgetInstance s) as [[up [d|]]|]; simpl; try reflexivity.
  destruct (d (containerRef s)) as [c' [err|]]; reflexivity.
Qed.

(** ** Failures of the initialize attempt *)

(** The [catch] of [initializeWidget]: the provider's exception is logged,
    the loaded flag and the guard are cleared, nothing is thrown further. *)
Lemma initializeWidget_catch r s c p e :
  containerRef s = Some c ->
  window_initializeDiroWidget s = Some p ->
  p ("diro-widget-inner-" ++ string_of_N (r_key r))%string
    (widgetOptions (makeTargetUrl (r_urn r))) = Raised e ->
  hasInitialized (initializeWidget r s) = false /\
  isWidgetLoaded (initializeWidget r s) = false /\
  widgetInstance (initializeWidget r s) = widgetInstance s /\
  log (initializeWidget r s) =
    log s ++
    [ProviderCalled ("diro-widget-inner-" ++ string_of_N (r_key r))%string
       (widgetOptions (makeTargetUrl (r_urn r)));
     ConsoleError "Error initializing Diro widget:" e].
Proof.
  intros Hc Hp He. unfold initializeWidget. rewrite Hc. simpl. rewrite Hp.
  simpl in He. rewrite He. simpl. rewrite <- app_assoc. auto.
Qed.

(** Line 89 runs after [initializeWidget] has returned, whatever happened
    inside it. *)
Lemma initializeWidgetProcess_sets_guard r s p :
  hasInitialized s = false ->
  window_initializeDiroWidget s = Some p ->
  hasInitialized (fst (initializeWidgetProcess r s)) = true.
Proof.
  intros Hh Hp. unfold initializeWidgetProcess. now rewrite Hh, Hp.
Qed.

(** Lines 93-94: the same on a poll tick. *)
Lemma poll_tick_sets_guard t r s p :
  cb t = CheckIntervalCb r ->
  window_initializeDiroWidget s = Some p ->
  hasInitialized (runCallback t s) = true.
Proof.
  intros Hcb Hp. unfold runCallback. now rewrite Hcb, Hp.
Qed.

Lemma guard_blocks_initialize r s :
  hasInitialized s = true -> initializeWidgetProcess r s = (s, None).
Proof. intros H. unfold initializeWidgetProcess. now rewrite H. Qed.

(** C1. The provider is present when the mount delay expires and throws.
    The exception is caught and logged and the component is not loaded, but
    the guard [hasInitialized] ends up set: the [catch] clears it and line 89
    sets it again, so a further initialize attempt returns at once. *)
Theorem failed_initialize_leaves_guard_set :
  run [EvTimer 1] (mount (Some "abc123") (Some failingProvider)) = Some failedState /\
  isWidgetLoaded failedState = false /\
  widgetInstance failedState = None /\
  log failedState =
    [ProviderCalled "diro-widget-inner-0"
       (widgetOptions (makeTargetUrl (Some "abc123")));
     ConsoleError "Error initializing Diro widget:" "provider failure"] /\
  hasInitialized failedState = true /\
  (forall r, initializeWidgetProcess r failedState = (failedState, None)).
Proof.
  do 5 (split; [vm_compute; reflexivity|]).
  intros r. apply guard_blocks_initialize. reflexivity.
Qed.

(** ** Timers and unmount *)

(** The function that [initializeWidgetProcess] returns on the polling path
    would cancel both the interval and the timeout, were it called. *)
Lemma pending_filter ci l :
  existsb (fun t => tid t =? ci) (filter (fun u => negb (tid u =? ci)) l) = false.
Proof.
  induction l as [|u l IH]; simpl; [reflexivity|].
  destruct (tid u =? ci) eqn:E; simpl; [exact IH|]. now rewrite E.
Qed.

Lemma pending_clearTimer_other id id' s :
  pending id s = false -> pending id (clearTimer id' s) = false.
Proof.
  unfold pending, clearTimer. simpl.
  induction (timers s) as [|u l IH]; simpl; [reflexivity|].
  intros H. apply orb_false_iff in H as [Hu Hl].
  destruct (tid u =? id'); simpl; [auto|]. rewrite Hu. auto.
Qed.

Lemma canceller_cancels_both c s :
  pending (fst c) (runCanceller c s) = false /\
  pending (snd c) (runCanceller c s) = false.
Proof.
  unfold runCanceller. split.
  - apply pending_clearTimer_other. apply pending_filter.
  - apply pending_filter.
Qed.

(** [unmount] cancels the timer of the [containerKey] effect and no other. *)
Lemma unmount_timers b s :
  timers (unmount b s) =
  filter (fun t => negb (tid t =? effectTimer s)) (timers s).
Proof.
  assert (H : forall s0, effectTimer (cleanup s0) = effectTimer s0).
  { intros s0. unfold cleanup.
    destruct (widgetInstance s0) as [[up [d|]]|]; simpl; try reflexivity.
    destruct (d (containerRef s0)) as [c' [err|]]; reflexivity. }
  unfold unmount.
  cbn [timers with_mounted with_containerRef clearTimer with_timers].
  rewrite H, cleanup_timers. now destruct b.
Qed.

(** [unmount] calls [destroy] once if there is a handle to destroy. *)
Lemma unmount_destroy_calls b s :
  reachable s ->
  destroy_calls (unmount b s) =
  (destroy_calls s + match widgetInstance s with Some _ => 1 | None => 0 end)%nat.
Proof.
  intros Hr. destruct (reachable_handle_inv s Hr) as ([H|H] & _).
  - unfold unmount. destruct b; rewrite cleanup_no_handle by exact H;
      rewrite H; unfold destroy_calls; simpl; lia.
  - unfold unmount, cleanup. destruct b; simpl; rewrite H; simpl;
      unfold destroy_calls; simpl; rewrite filter_app, length_app; simpl; lia.
Qed.

(** C2. Polling has begun when the component is unmounted: the poll interval
    and the 10 s timeout stay in the queue, the interval ticks on an
    unmounted component and the timeout fires 10 s after it was set.  A
    pending reinitialize delay survives unmount as well, and when it fires
    it starts a new poll interval and timeout. *)
Theorem timers_survive_unmount (b : bool) :
  run [EvTimer 1; EvUnmount b] (mount None None) = Some (unmountedPolling b) /\
  mounted (unmountedPolling b) = false /\
  map cb (timers (unmountedPolling b)) =
    [CheckIntervalCb {| r_key := 0; r_urn := None |}; TimeoutCb 2] /\
  (exists s, run (pollTicks 50 2 ++ [EvTimer 3]) (unmountedPolling b) = Some s /\
             now s = 10300 /\
             log s = [ConsoleWarn "Failed to initialize widget after timeout"]) /\
  run [EvElapse 50; EvReinitialize; EvElapse 20; EvUnmount b] (mount None None)
    = Some (unmountedReinit b) /\
  mounted (unmountedReinit b) = false /\
  map cb (timers (unmountedReinit b)) =
    [ReinitDelayCb {| r_key := 0; r_urn := None |}] /\
  (exists s, run [EvTimer 2] (unmountedReinit b) = Some s /\
             map cb (timers s) =
               [CheckIntervalCb {| r_key := 0; r_urn := None |}; TimeoutCb 4]).
Proof.
  destruct b;
    (split; [vm_compute; reflexivity|]);
    (split; [vm_compute; reflexivity|]);
    (split; [vm_compute; reflexivity|]);
    (split; [eexists; split; [vm_compute; reflexivity|];
             split; vm_compute; reflexivity|]);
    (split; [vm_compute; reflexivity|]);
    (split; [vm_compute; reflexivity|]);
    (split; [vm_compute; reflexivity|]);
    eexists; (split; [vm_compute; reflexivity|]); vm_compute; reflexivity.
Qed.

(** ** The poll interval and the timeout *)

(** A successful poll tick cancels the interval itself and nothing else. *)
Lemma poll_success_timers t r s p :
  cb t = CheckIntervalCb r ->
  window_initializeDiroWidget s = Some p ->
  timers (runCallback t s) = filter (fun u => negb (tid u =? tid t)) (timers s).
Proof.
  intros Hcb Hp. unfold runCallback. rewrite Hcb, Hp. simpl.
  unfold initializeWidget.
  destruct (containerRef s); [|reflexivity]. simpl. rewrite Hp.
  now destruct (p _ _).
Qed.

(** The timeout callback cancels the interval and warns. *)
Lemma timeout_callback t ci s :
  cb t = TimeoutCb ci ->
  timers (runCallback t s) = filter (fun u => negb (tid u =? ci)) (timers s) /\
  log (runCallback t s) =
    log s ++ [ConsoleWarn "Failed to initialize widget after timeout"] /\
  isWidgetLoaded (runCallback t s) = isWidgetLoaded s.
Proof.
  intros Hcb. unfold runCallback. rewrite Hcb. auto.
Qed.

(** C3. The provider appears while the component polls.  The tick that sees
    it loads the widget and cancels the interval, but the timeout stays
    pending; when it fires, 10 s after the attempt began, it warns that the
    widget failed to initialize although the widget is loaded. *)
Theorem timeout_survives_successful_poll :
  run [EvTimer 1; EvElapse 50; EvSetProvider (Some okProvider); EvTimer 2]
    (mount None None) = Some polledState /\
  now polledState = 500 /\
  isWidgetLoaded polledState = true /\
  pending 2 polledState = false /\
  pending 3 polledState = true /\
  map cb (timers polledState) = [TimeoutCb 2] /\
  exists s, run [EvTimer 3] polledState = Some s /\
            now s = 10300 /\
            isWidgetLoaded s = true /\
            log s = log polledState ++
                    [ConsoleWarn "Failed to initialize widget after timeout"].
Proof.
  do 6 (split; [vm_compute; reflexivity|]).
  eexists. split; [vm_compute; reflexivity|].
  do 2 (split; [vm_compute; reflexivity|]). vm_compute. reflexivity.
Qed.

(** ** The re-entry guard *)

Lemma initializeWidget_timers r s : timers (initializeWidget r s) = timers s.
Proof.
  unfold initializeWidget. destruct (containerRef s); [|reflexivity]. simpl.
  destruct (window_initializeDiroWidget s) as [p|]; [|reflexivity].
  now destruct (p _ _).
Qed.

Lemma fireTimer_keeps_guard t s :
  hasInitialized s = true -> hasInitialized (fireTimer t s) = true.
Proof.
  intros H. unfold fireTimer, runCallback.
  destruct (cb t) as [r|r|r|ci].
  - now rewrite guard_blocks_initialize.
  - now rewrite guard_blocks_initialize.
  - simpl. now destruct (window_initializeDiroWidget s).
  - exact H.
Qed.

Lemma unmount_hasInitialized b s : hasInitialized (unmount b s) = hasInitialized s.
Proof.
  unfold unmount. cbn [hasInitialized with_mounted with_containerRef clearTimer with_timers].
  rewrite cleanup_hasInitialized. now destruct b.
Qed.

Lemma reinitialize_hasInitialized s : hasInitialized (reinitialize s) = false.
Proof. reflexivity. Qed.

(** C4, as stated, fails: [cleanup] leaves a set guard set, alone and as
    part of unmount; it is [reinitialize] that clears it. *)
Lemma cleanup_keeps_guard_set :
  hasInitialized loadedState = true /\
  hasInitialized (cleanup loadedState) = true /\
  hasInitialized (unmount true loadedState) = true /\
  hasInitialized (unmount false loadedState) = true /\
  hasInitialized (reinitialize loadedState) = false.
Proof. repeat split; vm_compute; reflexivity. Qed.

(** C4, amended. An initialize attempt returns at once while the guard is
    set; [cleanup] and unmount leave the guard as it is; [reinitialize]
    clears it; of all events only the holder's [reinitialize] turns a set
    guard into a cleared one; and the handle slot holds nothing or the one
    handle the component built. *)
Theorem guard_blocks_and_only_reinitialize_resets :
  (forall r s, hasInitialized s = true -> initializeWidgetProcess r s = (s, None)) /\
  (forall s, hasInitialized (cleanup s) = hasInitialized s) /\
  (forall b s, hasInitialized (unmount b s) = hasInitialized s) /\
  (forall s, hasInitialized (reinitialize s) = false) /\
  (forall ev s s',
      step ev s = Some s' ->
      hasInitialized s = true -> hasInitialized s' = false ->
      ev = EvReinitialize) /\
  (forall s, reachable s ->
      widgetInstance s = None \/ widgetInstance s = Some simplifiedInstance).
Proof.
  split; [exact guard_blocks_initialize|].
  split; [exact cleanup_hasInitialized|].
  split; [exact unmount_hasInitialized|].
  split; [exact reinitialize_hasInitialized|].
  split.
  - intros ev s s' Hstep Hset Hclr.
    destruct ev as [dt|id|p|u|data| |b]; simpl in Hstep; try reflexivity; exfalso.
    + destruct (earliest _ s); [|discriminate]. injection Hstep as <-.
      simpl in Hclr. congruence.
    + destruct (findTimer id s) as [t|]; [|discriminate].
      destruct (earliest _ s); [|discriminate]. injection Hstep as <-.
      rewrite (fireTimer_keeps_guard t s Hset) in Hclr. discriminate.
    + injection Hstep as <-. simpl in Hclr. congruence.
    + destruct (mounted s); [|discriminate]. injection Hstep as <-.
      simpl in Hclr. congruence.
    + destruct (mounted s); [|discriminate]. injection Hstep as <-.
      unfold updateWidget in Hclr.
      destruct (widgetInstance s) as [w|]; [|simpl in Hclr; congruence].
      destruct (update w data (containerRef s)). simpl in Hclr. congruence.
    + destruct (mounted s); [|discriminate]. injection Hstep as <-.
      rewrite unmount_hasInitialized in Hclr. congruence.
  - intros s Hr. apply (reachable_handle_inv s Hr).
Qed.

Lemma guard_blocks_and_only_reinitialize_resets_witness :
  step EvReinitialize loadedState <> None /\
  hasInitialized loadedState = true /\
  initializeWidgetProcess (currentRender loadedState) loadedState = (loadedState, None).
Proof.
  split; [vm_compute; discriminate|].
  split; [vm_compute; reflexivity|].
  apply (proj1 guard_blocks_and_only_reinitialize_resets).
  vm_compute. reflexivity.
Defined.

(** Two attempts that overlap: the holder calls [reinitialize] while the
    first attempt polls, the reinitialize delay starts a second poll, the
    script loads, and each poll calls the provider when it ticks, with no
    [destroy] in between. *)
Example overlapping_polls_call_provider_twice :
  exists s,
    run [EvTimer 1; EvElapse 10; EvReinitialize; EvTimer 4;
         EvSetProvider (Some okProvider); EvTimer 2; EvTimer 5; EvTimer 6]
      (mount None None) = Some s /\
    provider_calls s = 2%nat /\ destroy_calls s = 0%nat.
Proof.
  eexists. split; [vm_compute; reflexivity|]. split; vm_compute; reflexivity.
Qed.

(** ** Runs without reinitialize *)

Lemma run_invariant_on (ok : Event -> bool) (P : State -> Prop) :
  (forall ev s s', ok ev = true -> P s -> step ev s = Some s' -> P s') ->
  forall evs s s', forallb ok evs = true -> P s -> run evs s = Some s' -> P s'.
Proof.
  intros Hstep. induction evs as [|e evs IH]; simpl; intros s s' Hok HP Hrun.
  - now injection Hrun as <-.
  - apply andb_true_iff in Hok as [He Hevs].
    destruct (step e s) as [s1|] eqn:E; [|discriminate].
    eapply IH; [exact Hevs| |exact Hrun]. eapply Hstep; eauto.
Qed.

Lemma timers_sub_trans l1 l2 l3 :
  timers_sub l1 l2 -> timers_sub l2 l3 -> timers_sub l1 l3.
Proof.
  intros H12 H23 u Hu.
  destruct (H12 u Hu) as (u2 & Hu2 & Ht & Hc).
  destruct (H23 u2 Hu2) as (u3 & Hu3 & Ht' & Hc').
  exists u3. repeat split; congruence.
Qed.

Lemma timers_sub_filter f l : timers_sub (filter f l) l.
Proof. intros u Hu. apply filter_In in Hu as [Hu _]. exists u. auto. Qed.

Lemma timers_sub_reschedule t l : timers_sub (reschedule t l) l.
Proof.
  unfold reschedule. destruct (period t) as [p|]; [|apply timers_sub_filter].
  intros u Hu. apply in_map_iff in Hu as (u0 & <- & Hu0).
  exists u0. split; [exact Hu0|]. now destruct (tid u0 =? tid t).
Qed.

Lemma timers_sub_timeouts l' l :
  timers_sub l' l ->
  (forall t, In t l -> is_timeout t) -> forall t, In t l' -> is_timeout t.
Proof.
  intros Hsub H t Ht. destruct (Hsub t Ht) as (u0 & Hu0 & _ & Hc).
  destruct (H u0 Hu0) as (ci & Hci). exists ci. congruence.
Qed.

Lemma findTimer_In id s t : findTimer id s = Some t -> In t (timers s).
Proof. intros H. now apply find_some in H. Qed.

Lemma provider_calls_emit e s :
  is_provider_call e = false -> provider_calls (emit e s) = provider_calls s.
Proof.
  intros He. unfold provider_calls, emit. simpl.
  rewrite filter_app. simpl. rewrite He. now rewrite app_nil_r.
Qed.

Lemma cleanup_provider_calls s : provider_calls (cleanup s) = provider_calls s.
Proof.
  unfold cleanup. destruct (widgetInstance s) as [[up [d|]]|]; simpl; try reflexivity.
  destruct (d (containerRef s)) as [c' [err|]]; unfold provider_calls; simpl;
    rewrite !filter_app; simpl; now rewrite !app_nil_r.
Qed.

Lemma cleanup_keeps_unloaded s :
  isWidgetLoaded s = false -> isWidgetLoaded (cleanup s) = false.
Proof.
  intros H. unfold cleanup.
  destruct (widgetInstance s) as [[up [d|]]|]; simpl; try exact H.
  now destruct (d (containerRef s)) as [c' [err|]].
Qed.

Lemma cleanup_provider s :
  window_initializeDiroWidget (cleanup s) = window_initializeDiroWidget s.
Proof.
  unfold cleanup. destruct (widgetInstance s) as [[up [d|]]|]; simpl; try reflexivity.
  now destruct (d (containerRef s)) as [c' [err|]].
Qed.

Lemma unmount_keeps_unloaded b s :
  isWidgetLoaded s = false -> isWidgetLoaded (unmount b s) = false.
Proof.
  intros H. unfold unmount.
  cbn [isWidgetLoaded with_mounted with_containerRef clearTimer with_timers].
  apply cleanup_keeps_unloaded. now destruct b.
Qed.

Lemma unmount_provider_calls b s : provider_calls (unmount b s) = provider_calls s.
Proof.
  unfold unmount.
  change (provider_calls (cleanup (if b then with_containerRef None s else s))
          = provider_calls s).
  rewrite cleanup_provider_calls. now destruct b.
Qed.

Lemma updateWidget_frame data s :
  timers (fst (updateWidget data s)) = timers s /\
  isWidgetLoaded (fst (updateWidget data s)) = isWidgetLoaded s /\
  log (fst (updateWidget data s)) = log s /\
  window_initializeDiroWidget (fst (updateWidget data s)) =
    window_initializeDiroWidget s.
Proof.
  unfold updateWidget. destruct (widgetInstance s) as [w|]; [|auto].
  now destruct (update w data (containerRef s)).
Qed.

(** What a timeout callback leaves behind. *)
Lemma fireTimer_timeout t ci s :
  cb t = TimeoutCb ci ->
  timers (fireTimer t s) =
    filter (fun u => negb (tid u =? ci)) (reschedule t (timers s)) /\
  isWidgetLoaded (fireTimer t s) = isWidgetLoaded s /\
  log (fireTimer t s) =
    log s ++ [ConsoleWarn "Failed to initialize widget after timeout"] /\
  window_initializeDiroWidget (fireTimer t s) = window_initializeDiroWidget s.
Proof.
  intros Hcb. unfold fireTimer, runCallback. rewrite Hcb. auto.
Qed.







Lemma fireTimer_poll_absent t r s :
  cb t = CheckIntervalCb r ->
  window_initializeDiroWidget s = None ->
  timers (fireTimer t s) = reschedule t (timers s) /\
  isWidgetLoaded (fireTimer t s) = isWidgetLoaded s.
Proof.
  intros Hcb Hp. unfold fireTimer, runCallback. rewrite Hcb. simpl.
  rewrite Hp. auto.
Qed.

Lemma fireTimer_poll_present t r s p :
  cb t = CheckIntervalCb r ->
  window_initializeDiroWidget s = Some p ->
  timers (fireTimer t s) =
    filter (fun u => negb (tid u =? tid t)) (reschedule t (timers s)).
Proof.
  intros Hcb Hp. unfold fireTimer.
  erewrite poll_success_timers; [reflexivity|exact Hcb|exact Hp].
Qed.

(** The mount delay expires: the attempt is made at once, or polling
    begins with a fresh interval and its timeout. *)
Lemma single_attempt_mount_delay t r s :
  timers s = [t] -> cb t = MountDelayCb r -> period t = None ->
  isWidgetLoaded s = false ->
  single_attempt (fireTimer t s).
Proof.
  intros Hts Hcb Hper Hl. unfold fireTimer, runCallback. rewrite Hcb.
  assert (Hre : reschedule t (timers (with_now (N.max (now s) (due t)) s)) = []).
  { unfold reschedule. rewrite Hper. simpl. rewrite Hts. simpl.
    now rewrite N.eqb_refl. }
  rewrite Hre. set (s1 := with_timers [] _).
  unfold initializeWidgetProcess.
  destruct (hasInitialized s1).
  - right. right. intros u [].
  - destruct (window_initializeDiroWidget s1) as [p|].
    + right. right. cbn [fst timers with_hasInitialized].
      rewrite initializeWidget_timers. intros u [].
    + right. left. exists (nextTimerId s). split; [exact Hl|]. simpl.
      intros u [<-|[<-|[]]]; simpl.
      * left. split; [reflexivity|]. now exists r.
      * right. split; [lia|reflexivity].
Qed.

Lemma single_attempt_frame s s' :
  (isWidgetLoaded s = false -> isWidgetLoaded s' = false) ->
  (timers s' = timers s \/ exists f, timers s' = filter f (timers s)) ->
  single_attempt s -> single_attempt s'.
Proof.
  intros Hl [Ht|(f & Ht)] Hsa; unfold single_attempt; rewrite Ht.
  - destruct Hsa as [(Hld & H)|[(ci & Hld & H)|H]]; auto.
    right. left. exists ci. auto.
  - destruct Hsa as [(Hld & H)|[(ci & Hld & H)|H]].
    + left. split; [auto|].
      destruct H as [->|(t & -> & Hm & Hp)]; [now left|].
      simpl. destruct (f t); [right; now exists t | now left].
    + right. left. exists ci. split; [auto|].
      intros t Hin. apply filter_In in Hin as [Hin _]. auto.
    + right. right. intros t Hin. apply filter_In in Hin as [Hin _]. auto.
Qed.

Lemma single_attempt_step ev s s' :
  negb (is_reinitialize ev) = true ->
  single_attempt s -> step ev s = Some s' -> single_attempt s'.
Proof.
  intros Hev Hsa Hstep.
  destruct ev as [dt|id|p|u|data| |b]; simpl in Hstep; try discriminate Hev.
  - destruct (earliest _ s); [|discriminate]. injection Hstep as <-.
    apply (single_attempt_frame s); auto.
  - destruct (findTimer id s) as [t|] eqn:Hf; [|discriminate].
    destruct (earliest _ s); [|discriminate]. injection Hstep as <-.
    pose proof (findTimer_In _ _ _ Hf) as Hin.
    destruct Hsa as [(Hld & H)|[(ci & Hld & H)|H]].
    + destruct H as [H|(t0 & H & (r & Hr) & Hp)]; rewrite H in Hin.
      * destruct Hin.
      * destruct Hin as [->|[]]. now apply (single_attempt_mount_delay t r).
    + destruct (H t Hin) as [(Htid & r & Hr)|(Htid & Hcb)].
      * destruct (window_initializeDiroWidget s) as [p|] eqn:Hp.
        -- right. right. rewrite (fireTimer_poll_present t r s p Hr Hp).
           intros u Hu. apply filter_In in Hu as [Hu Hne].
           destruct (timers_sub_reschedule t _ u Hu) as (u0 & Hu0 & Ht0 & Hc0).
           destruct (H u0 Hu0) as [(Htid0 & _)|(_ & Hcb0)].
           ++ rewrite Ht0, Htid0, <- Htid, N.eqb_refl in Hne. discriminate.
           ++ exists ci. congruence.
        -- destruct (fireTimer_poll_absent t r s Hr Hp) as (Htm & Hl').
           right. left. exists ci. rewrite Htm, Hl'. split; [exact Hld|].
           intros u Hu.
           destruct (timers_sub_reschedule t _ u Hu) as (u0 & Hu0 & Ht0 & Hc0).
           unfold is_poll. rewrite Ht0, Hc0. auto.
      * destruct (fireTimer_timeout t ci s Hcb) as (Htm & _).
        right. right. rewrite Htm.
        intros u Hu. apply filter_In in Hu as [Hu Hne].
        destruct (timers_sub_reschedule t _ u Hu) as (u0 & Hu0 & Ht0 & Hc0).
        destruct (H u0 Hu0) as [(Htid0 & _)|(_ & Hcb0)].
        -- rewrite Ht0, Htid0, N.eqb_refl in Hne. discriminate.
        -- exists ci. congruence.
    + destruct (H t Hin) as (ci & Hcb).
      destruct (fireTimer_timeout t ci s Hcb) as (Htm & _).
      right. right. rewrite Htm.
      eapply timers_sub_timeouts; [|exact H].
      eapply timers_sub_trans; [apply timers_sub_filter|apply timers_sub_reschedule].
  - injection Hstep as <-. apply (single_attempt_frame s); auto.
  - destruct (mounted s); [|discriminate]. injection Hstep as <-.
    apply (single_attempt_frame s); auto.
  - destruct (mounted s); [|discriminate]. injection Hstep as <-.
    destruct (updateWidget_frame data s) as (Htm & Hld & _).
    apply (single_attempt_frame s); auto. congruence.
  - destruct (mounted s); [|discriminate]. injection Hstep as <-.
    apply (single_attempt_frame s).
    + apply unmount_keeps_unloaded.
    + right. eexists. apply unmount_timers.
    + exact Hsa.
Qed.

Lemma single_attempt_run u p evs s :
  no_reinitialize evs -> run evs (mount u p) = Some s -> single_attempt s.
Proof.
  intros Hevs Hrun.
  apply (run_invariant_on (fun ev => negb (is_reinitialize ev)) single_attempt
           single_attempt_step evs (mount u p) s Hevs); auto.
  left. split; [reflexivity|]. right. eexists. split; [reflexivity|].
  split; [|reflexivity]. eexists. reflexivity.
Qed.




(** ** The functions taken apart *)

(** With the provider present [initializeWidget] does nothing (no
    container), succeeds, or fails. *)
Lemma initializeWidget_cases r s p :
  window_initializeDiroWidget s = Some p ->
  (containerRef s = None /\ initializeWidget r s = s) \/
  (exists m, p (inner_id (r_key r)) (widgetOptions (makeTargetUrl (r_urn r)))
             = Injected m /\
             containerRef s <> None /\
             initializeWidget r s = widgetLoaded r m s) \/
  (exists e, p (inner_id (r_key r)) (widgetOptions (makeTargetUrl (r_urn r)))
             = Raised e /\
             containerRef s <> None /\
             initializeWidget r s = widgetFailed r e s).
Proof.
  intros Hp. unfold initializeWidget.
  destruct (containerRef s) as [c|]; [right|now left].
  cbn [window_initializeDiroWidget with_containerRef]. rewrite Hp.
  change ("diro-widget-inner-" ++ string_of_N (r_key r))%string
    with (inner_id (r_key r)).
  destruct (p _ _) as [m|e] eqn:E.
  - left. exists m. split; [reflexivity|]. split; [discriminate|reflexivity].
  - right. exists e. split; [reflexivity|]. split; [discriminate|reflexivity].
Qed.

(** What a timer callback does to the state it runs in. *)
Lemma fireTimer_cases t s :
  fireTimer t s = atFire t s \/
  (exists r p,
      window_initializeDiroWidget (atFire t s) = Some p /\
      (((cb t = MountDelayCb r \/ cb t = ReinitDelayCb r) /\
        fireTimer t s =
          with_hasInitialized true (initializeWidget r (atFire t s))) \/
       (cb t = CheckIntervalCb r /\
        fireTimer t s =
          clearTimer (tid t)
            (with_hasInitialized true (initializeWidget r (atFire t s)))))) \/
  (exists r,
      hasInitialized (atFire t s) = false /\
      window_initializeDiroWidget (atFire t s) = None /\
      fireTimer t s = pollStarted r (atFire t s)) \/
  (exists ci,
      cb t = TimeoutCb ci /\
      fireTimer t s =
        emit (ConsoleWarn "Failed to initialize widget after timeout")
          (clearTimer ci (atFire t s))).
Proof.
  change (fireTimer t s) with (runCallback t (atFire t s)).
  unfold runCallback. generalize (atFire t s) as s1. intros s1.
  assert (Hinit : forall r,
    fst (initializeWidgetProcess r s1) = s1 \/
    (exists p, window_initializeDiroWidget s1 = Some p /\
       fst (initializeWidgetProcess r s1) =
       with_hasInitialized true (initializeWidget r s1)) \/
    (hasInitialized s1 = false /\
     window_initializeDiroWidget s1 = None /\
     fst (initializeWidgetProcess r s1) = pollStarted r s1)).
  { intros r. unfold initializeWidgetProcess.
    destruct (hasInitialized s1); [now left|right].
    destruct (window_initializeDiroWidget s1) as [p|].
    - left. now exists p.
    - right. auto. }
  destruct (cb t) as [r|r|r|ci].
  - destruct (Hinit r) as [H|[(p & Hp & H)|(Hh & Hp & H)]]; rewrite H.
    + now left.
    + right. left. exists r, p. auto.
    + right. right. left. now exists r.
  - destruct (Hinit r) as [H|[(p & Hp & H)|(Hh & Hp & H)]]; rewrite H.
    + now left.
    + right. left. exists r, p. auto.
    + right. right. left. now exists r.
  - destruct (window_initializeDiroWidget s1) as [p|] eqn:Hp.
    + right. left. exists r, p. auto.
    + now left.
  - right. right. right. now exists ci.
Qed.

(** ** The container generation *)

Lemma string_of_N_inj n n' : string_of_N n = string_of_N n' -> n = n'.
Proof.
  unfold string_of_N. intros H.
  apply Unsigned.to_uint_inj.
  assert (H' : Some (N.to_uint n) = Some (N.to_uint n'))
    by (rewrite <- !NilEmpty.usu; now rewrite H).
  now injection H'.
Qed.

Lemma cleanup_containerKey s : containerKey (cleanup s) = containerKey s.
Proof.
  unfold cleanup. destruct (widgetInstance s) as [[up [d|]]|]; simpl; try reflexivity.
  now destruct (d (containerRef s)) as [c' [err|]].
Qed.

Lemma initializeWidget_containerKey r s :
  containerKey (initializeWidget r s) = containerKey s.
Proof.
  unfold initializeWidget. destruct (containerRef s); [|reflexivity]. simpl.
  destruct (window_initializeDiroWidget s) as [p|]; [|reflexivity].
  now destruct (p _ _).
Qed.

Lemma fireTimer_containerKey t s : containerKey (fireTimer t s) = containerKey s.
Proof.
  destruct (fireTimer_cases t s)
    as [H|[(r & p & _ & [(_ & H)|(_ & H)])|[(r & _ & _ & H)|(ci & _ & H)]]];
    rewrite H; try reflexivity;
    cbn [containerKey with_hasInitialized clearTimer with_timers];
    now rewrite initializeWidget_containerKey.
Qed.

Lemma step_containerKey ev s s' :
  step ev s = Some s' ->
  containerKey s' = containerKey s + (if is_reinitialize ev then 1 else 0).
Proof.
  intros Hstep. step_cases Hstep ev; cbn [is_reinitialize].
  - simpl. lia.
  - rewrite fireTimer_containerKey. lia.
  - simpl. lia.
  - simpl. lia.
  - unfold updateWidget. destruct (widgetInstance s) as [w|]; [|simpl; lia].
    destruct (update w data (containerRef s)). simpl. lia.
  - change (containerKey (cleanup s) + 1 = containerKey s + 1).
    now rewrite cleanup_containerKey.
  - change (containerKey (cleanup (if b then with_containerRef None s else s))
            = containerKey s + 0).
    rewrite cleanup_containerKey. destruct b; simpl; lia.
Qed.

Lemma run_containerKey evs s s' :
  run evs s = Some s' ->
  containerKey s' = containerKey s + N.of_nat (count_reinitialize evs).
Proof.
  revert s. induction evs as [|ev evs IH]; simpl; intros s Hrun.
  - injection Hrun as <-. unfold count_reinitialize. simpl. lia.
  - destruct (step ev s) as [s1|] eqn:Hstep; [|discriminate].
    rewrite (IH s1 Hrun), (step_containerKey ev s s1 Hstep).
    unfold count_reinitialize. simpl.
    destruct (is_reinitialize ev); [cbn [List.length]; rewrite Nat2N.inj_succ|]; lia.
Qed.

(** X1. The container generation counts the holder's calls of
    [reinitialize]: after a run from mount, [containerKey] is the number of
    [reinitialize] events of the run; nothing else changes it. *)
Theorem containerKey_counts_reinitialize u p evs s :
  run evs (mount u p) = Some s ->
  containerKey s = N.of_nat (count_reinitialize evs).
Proof.
  intros Hrun. now rewrite (run_containerKey evs _ s Hrun).
Qed.

Lemma containerKey_counts_reinitialize_witness :
  containerKey
    (after [EvReinitialize; EvTimer 2; EvReinitialize; EvUnmount true]
       (mount None (Some okProvider))) = 2.
Proof.
  apply (containerKey_counts_reinitialize None (Some okProvider)
           [EvReinitialize; EvTimer 2; EvReinitialize; EvUnmount true]).
  vm_compute. reflexivity.
Defined.

(** X2. The [key] and the [id] of the rendered container determine the
    generation, so they differ between two states of a run exactly when the
    holder has called [reinitialize] in between: a generation's container is
    never given the key or id of an earlier one. *)
Theorem render_key_fresh evs s s' :
  run evs s = Some s' ->
  (count_reinitialize evs <> 0%nat <->
   container_key (render s') <> container_key (render s)) /\
  (count_reinitialize evs <> 0%nat <->
   container_id (render s') <> container_id (render s)).
Proof.
  intros Hrun. pose proof (run_containerKey evs s s' Hrun) as Hk.
  assert (Hneq : count_reinitialize evs <> 0%nat <-> containerKey s' <> containerKey s)
    by lia.
  unfold render. cbn [container_key container_id].
  split; rewrite Hneq; split; intros H E; apply H.
  - simpl in E. injection E as E. now apply string_of_N_inj.
  - now rewrite E.
  - simpl in E. injection E as E. now apply string_of_N_inj.
  - now rewrite E.
Qed.

Lemma render_key_fresh_witness :
  container_key (render (after [EvReinitialize] loadedState)) <>
  container_key (render loadedState).
Proof.
  apply (proj1 (render_key_fresh [EvReinitialize] loadedState
                  (after [EvReinitialize] loadedState) ltac:(vm_compute; reflexivity))).
  vm_compute. discriminate.
Defined.

(** ** What a turn of the event loop logs *)

Lemma cleanup_effect s :
  (log (cleanup s) = log s /\ widgetInstance (cleanup s) = widgetInstance s) \/
  (widgetInstance s <> None /\ widgetInstance (cleanup s) = None /\
   (log (cleanup s) = log s ++ [DestroyCalled] \/
    exists e, log (cleanup s) =
              log s ++ [DestroyCalled; ConsoleError "Error destroying widget:" e])).
Proof.
  unfold cleanup. destruct (widgetInstance s) as [[up [d|]]|] eqn:Hw; simpl.
  - right. split; [discriminate|].
    destruct (d (containerRef s)) as [c' [err|]]; simpl; split; auto.
    right. exists err. now rewrite <- app_assoc.
  - left. auto.
  - left. auto.
Qed.

Lemma step_effect ev s s' :
  step ev s = Some s' -> exists l, log s' = log s ++ l /\ turn_effect ev s s' l.
Proof.
  intros Hstep. step_cases Hstep ev; cbn [turn_effect].
  - exists []. now rewrite app_nil_r.
  - destruct (fireTimer_cases t s)
      as [H|[(r & p & Hp & H)|[(r & _ & _ & H)|(ci & _ & H)]]].
    + rewrite H. exists []. rewrite app_nil_r. auto.
    + assert (Hin : exists l,
                 log (initializeWidget r (atFire t s)) = log s ++ l /\
                 turn_effect (EvTimer id) s (initializeWidget r (atFire t s)) l).
      { destruct (initializeWidget_cases r (atFire t s) p Hp)
          as [(_ & E)|[(m & _ & _ & E)|(e & _ & _ & E)]]; rewrite E.
        - exists []. rewrite app_nil_r. simpl. auto.
        - eexists. split; [reflexivity|]. right. left.
          exists (r_key r), (r_urn r). split; reflexivity.
        - eexists. split; [simpl; rewrite <- app_assoc; reflexivity|].
          right. right. left.
          exists (r_key r), (r_urn r), e. split; reflexivity. }
      destruct Hin as (l & Hl & He). exists l.
      destruct H as [(_ & H)|(_ & H)]; rewrite H; auto.
    + rewrite H. exists []. rewrite app_nil_r. auto.
    + rewrite H. eexists. split; [reflexivity|]. right. right. right. auto.
  - exists []. now rewrite app_nil_r.
  - exists []. now rewrite app_nil_r.
  - exists []. rewrite app_nil_r.
    destruct (updateWidget_frame data s) as (_ & _ & Hl & _).
    split; [exact Hl|]. split; [reflexivity|].
    unfold updateWidget. destruct (widgetInstance s) as [w|] eqn:Hw; [|exact Hw].
    now destruct (update w data (containerRef s)).
  - change (exists l, log (cleanup s) = log s ++ l /\
              ((l = [] /\ widgetInstance (cleanup s) = widgetInstance s) \/
               (widgetInstance s <> None /\ widgetInstance (cleanup s) = None /\
                (l = [DestroyCalled] \/
                 exists e, l = [DestroyCalled;
                                ConsoleError "Error destroying widget:" e])))).
    destruct (cleanup_effect s) as [(Hl & Hw)|(Hne & Hw & [Hl|(e & Hl)])].
    + exists []. rewrite app_nil_r. auto.
    + eexists. split; [exact Hl|]. right. auto.
    + eexists. split; [exact Hl|]. right. eauto 6.
  - set (s0 := if b then with_containerRef None s else s).
    assert (Hl0 : log s0 = log s) by now destruct b.
    assert (Hw0 : widgetInstance s0 = widgetInstance s) by now destruct b.
    change (exists l, log (cleanup s0) = log s ++ l /\
              ((l = [] /\ widgetInstance (cleanup s0) = widgetInstance s) \/
               (widgetInstance s <> None /\ widgetInstance (cleanup s0) = None /\
                (l = [DestroyCalled] \/
                 exists e, l = [DestroyCalled;
                                ConsoleError "Error destroying widget:" e])))).
    rewrite <- Hl0, <- Hw0.
    destruct (cleanup_effect s0) as [(Hl & Hw)|(Hne & Hw & [Hl|(e & Hl)])].
    + exists []. rewrite app_nil_r. auto.
    + eexists. split; [exact Hl|]. right. auto.
    + eexists. split; [exact Hl|]. right. eauto 6.
Qed.

(** Only a timer callback calls the provider, and once at most. *)
Lemma provider_calls_step ev s s' :
  step ev s = Some s' ->
  provider_calls s' = provider_calls s \/
  (provider_calls s' = S (provider_calls s) /\ exists id, ev = EvTimer id).
Proof.
  intros Hstep. pose proof (step_effect ev s s' Hstep) as H. clear Hstep.
  effect_cases H ev; count_log Hlog;
    first [left; lia | right; split; [lia|eauto]].
Qed.

(** X3. In one turn of the event loop the provider is called at most once,
    and only by a timer callback; a handle's [destroy] is called at most
    once, and only by [reinitialize] or unmount, which then empty the handle
    slot.  The holder's [updateWidget], a change of props and the loading of
    the script call neither. *)
Theorem calls_per_turn ev s s' :
  step ev s = Some s' ->
  (provider_calls s' = provider_calls s \/
   (provider_calls s' = S (provider_calls s) /\ exists id, ev = EvTimer id)) /\
  (destroy_calls s' = destroy_calls s \/
   (destroy_calls s' = S (destroy_calls s) /\
    widgetInstance s <> None /\ widgetInstance s' = None /\
    (ev = EvReinitialize \/ exists b, ev = EvUnmount b))).
Proof.
  intros Hstep. pose proof (step_effect ev s s' Hstep) as H. clear Hstep.
  effect_cases H ev; count_log Hlog;
    (split; [first [left; lia | right; split; [lia|eauto]]
            |first [left; lia | right; repeat split; eauto; lia]]).
Qed.

Lemma calls_per_turn_witness :
  provider_calls loadedState = 1%nat /\
  destroy_calls (after [EvReinitialize] loadedState) = 1%nat.
Proof.
  split; [vm_compute; reflexivity|].
  destruct (calls_per_turn EvReinitialize loadedState
              (after [EvReinitialize] loadedState)
              ltac:(vm_compute; reflexivity)) as (_ & [H|(H & _)]).
  - exfalso. revert H. vm_compute. discriminate.
  - rewrite H. vm_compute. reflexivity.
Defined.

Lemma step_not_available ev s s' :
  step ev s = Some s' -> not_available_errors s' = not_available_errors s.
Proof.
  intros Hstep. pose proof (step_effect ev s s' Hstep) as H. clear Hstep.
  effect_cases H ev; count_log Hlog; lia.
Qed.

(** X4. The check of lines 134-137 never fires: [initializeWidget] is only
    called where the provider has just been seen, so on no run from mount
    does the console get "initializeDiroWidget is not available". *)
Theorem not_available_never_logged s msg :
  reachable s -> ~ In (ConsoleErrorMsg msg) (log s).
Proof.
  intros Hr.
  assert (H0 : not_available_errors s = 0%nat).
  { revert s Hr. apply reachable_invariant; [reflexivity|].
    intros ev s s' IH Hstep. now rewrite (step_not_available ev s s' Hstep). }
  intros Hin.
  unfold not_available_errors in H0.
  assert (Hf : In (ConsoleErrorMsg msg) (filter is_error_msg (log s)))
    by (apply filter_In; split; [exact Hin|reflexivity]).
  destruct (filter is_error_msg (log s)); [destruct Hf|discriminate].
Qed.

Lemma not_available_never_logged_witness :
  ~ In (ConsoleErrorMsg "initializeDiroWidget is not available") (log failedState).
Proof.
  apply (not_available_never_logged failedState).
  exists (Some "abc123"), (Some failingProvider), [EvTimer 1].
  vm_compute. reflexivity.
Defined.

Lemma step_destroys_bounded ev s s' :
  step ev s = Some s' ->
  (destroy_calls s + handle_count s <= provider_calls s)%nat ->
  (destroy_calls s' + handle_count s' <= provider_calls s')%nat.
Proof.
  intros Hstep. pose proof (step_effect ev s s' Hstep) as H. clear Hstep.
  effect_cases H ev; intros Hle; count_log Hlog;
    repeat match goal with
           | E : widgetInstance s' = _ |- _ => rewrite E
           end;
    destruct (widgetInstance s); try congruence; lia.
Qed.

(** X5. The component never destroys more handles than it has obtained: on
    every run from mount, the calls of [destroy] plus the handle still in
    the slot do not exceed the calls of the provider.  In particular no
    handle is destroyed twice. *)
Theorem destroys_bounded_by_calls s :
  reachable s ->
  (destroy_calls s + handle_count s <= provider_calls s)%nat.
Proof.
  revert s. apply reachable_invariant.
  - intros u p. vm_compute. lia.
  - intros ev s s' IH Hstep. now apply (step_destroys_bounded ev s s').
Qed.

Lemma destroys_bounded_by_calls_witness :
  (destroy_calls (after [EvReinitialize; EvUnmount false] loadedState) +
   handle_count (after [EvReinitialize; EvUnmount false] loadedState) <= 1)%nat.
Proof.
  assert (H : provider_calls (after [EvReinitialize; EvUnmount false] loadedState)
              = 1%nat) by (vm_compute; reflexivity).
  rewrite <- H. apply destroys_bounded_by_calls.
  exists (Some "abc123"), (Some okProvider),
    [EvTimer 1; EvReinitialize; EvUnmount false].
  vm_compute. reflexivity.
Defined.

Lemma step_fixed_calls ev s s' :
  step ev s = Some s' ->
  Forall fixed_call (log s) -> Forall fixed_call (log s').
Proof.
  intros Hstep. pose proof (step_effect ev s s' Hstep) as H. clear Hstep.
  effect_cases H ev; intros Hall; rewrite Hlog; apply Forall_app; split;
    auto; repeat constructor; cbn [fixed_call]; eauto.
Qed.

Lemma reachable_fixed_calls s : reachable s -> Forall fixed_call (log s).
Proof.
  revert s. apply reachable_invariant.
  - intros u p. constructor.
  - intros ev s s' IH Hstep. now apply (step_fixed_calls ev s s').
Qed.

(** X6. Every call of the provider, on every run from mount, is made with
    the options of lines 139-154: redirection allowed, the button text
    "Start verification", opening in the same tab, a target URL that is the
    fixed base with the [trackid] of some urn, and for a container a child
    [div] with id [diro-widget-inner-k]. *)
Theorem provider_called_with_fixed_options s elem opts :
  reachable s -> In (ProviderCalled elem opts) (log s) ->
  allowRedirection opts = true /\
  buttonText opts = "Start verification" /\
  openWith opts = "sametab" /\
  (exists u, targetUrl opts = (base_url ++ "&trackid=" ++ trackid u)%string) /\
  (exists k, elem = inner_id k).
Proof.
  intros Hr Hin.
  pose proof (proj1 (Forall_forall _ _) (reachable_fixed_calls s Hr) _ Hin) as H.
  destruct H as (k & u & -> & ->).
  repeat split.
  - exists u. apply makeTargetUrl_eq.
  - now exists k.
Qed.

Lemma provider_called_with_fixed_options_witness :
  exists opts,
    log loadedState = [ProviderCalled "diro-widget-inner-0" opts] /\
    allowRedirection opts = true /\
    targetUrl opts = (base_url ++ "&trackid=abc123")%string.
Proof.
  exists (widgetOptions (makeTargetUrl (Some "abc123"))).
  split; [vm_compute; reflexivity|].
  destruct (provider_called_with_fixed_options loadedState "diro-widget-inner-0"
              (widgetOptions (makeTargetUrl (Some "abc123"))))
    as (Ha & _).
  - exists (Some "abc123"), (Some okProvider), [EvTimer 1].
    vm_compute. reflexivity.
  - vm_compute. left. reflexivity.
  - split; [exact Ha|reflexivity].
Defined.

(** ** What is on display *)

Lemma cleanup_unloads s : handle_inv s -> isWidgetLoaded (cleanup s) = false.
Proof.
  intros (_ & H2). destruct (isWidgetLoaded s) eqn:Hl.
  - destruct (cleanup_destroys s _ _ (H2 eq_refl) eq_refl) as (_ & H & _).
    exact H.
  - now apply cleanup_keeps_unloaded.
Qed.

Lemma cleanup_empties_slot s : handle_inv s -> widgetInstance (cleanup s) = None.
Proof.
  intros ([H|H] & _).
  - now apply cleanup_no_handle_after.
  - now destruct (cleanup_destroys s _ _ H eq_refl) as (H' & _).
Qed.

Lemma unmount_unloads b s : handle_inv s -> isWidgetLoaded (unmount b s) = false.
Proof.
  intros H. unfold unmount.
  cbn [isWidgetLoaded with_mounted with_containerRef clearTimer with_timers].
  apply cleanup_unloads.
  destruct b; [|exact H]. eapply handle_inv_frame; [| |exact H]; reflexivity.
Qed.

Lemma shows_widget_step ev s s' :
  handle_inv s -> shows_widget s -> step ev s = Some s' -> shows_widget s'.
Proof.
  intros Hinv Hs Hstep. unfold shows_widget in *.
  step_cases Hstep ev; try exact Hs.
  - destruct (fireTimer_cases t s)
      as [H|[(r & p & Hp & H)|[(r & _ & _ & H)|(ci & _ & H)]]].
    + rewrite H. exact Hs.
    + assert (Hin : isWidgetLoaded (initializeWidget r (atFire t s)) = true ->
                    exists k m, containerRef (initializeWidget r (atFire t s))
                                = Some [widgetChild k m]).
      { destruct (initializeWidget_cases r (atFire t s) p Hp)
          as [(_ & E)|[(m & _ & _ & E)|(e & _ & _ & E)]]; rewrite E.
        - exact Hs.
        - intros _. now exists (r_key r), m.
        - discriminate. }
      destruct H as [(_ & H)|(_ & H)]; rewrite H; exact Hin.
    + rewrite H. exact Hs.
    + rewrite H. exact Hs.
  - destruct Hinv as ([Hw|Hw] & _); unfold updateWidget; rewrite Hw; exact Hs.
  - intros Hl. exfalso. change (isWidgetLoaded (cleanup s) = true) in Hl.
    now rewrite (cleanup_unloads s Hinv) in Hl.
  - intros Hl. now rewrite (unmount_unloads b s Hinv) in Hl.
Qed.

Lemma reachable_shows_widget s : reachable s -> shows_widget s.
Proof.
  intros Hr.
  assert (H : handle_inv s /\ shows_widget s); [|apply H].
  revert s Hr. apply reachable_invariant.
  - intros u p. split; [apply reachable_handle_inv, reachable_mount|].
    intros H. discriminate H.
  - intros ev s s' (Hinv & Hs) Hstep. split.
    + now apply (handle_inv_step ev s s').
    + now apply (shows_widget_step ev s s').
Qed.

(** X7. What the component renders, in every state it can reach.  While not
    loaded it renders the placeholder and hides the container.  While
    loaded it renders no placeholder and displays the container, which then
    holds exactly one child: the [div] that [initializeWidget] created and
    handed to the provider; and the handle slot is full. *)
Theorem rendering_contract s :
  reachable s ->
  (isWidgetLoaded s = false ->
   placeholder (render s) = true /\ container_display (render s) = "none") /\
  (isWidgetLoaded s = true ->
   placeholder (render s) = false /\ container_display (render s) = "block" /\
   widgetInstance s = Some simplifiedInstance /\
   exists k m, containerRef s = Some [widgetChild k m]).
Proof.
  intros Hr. unfold render. cbn [placeholder container_display]. split.
  - now intros ->.
  - intros Hl. rewrite Hl. repeat split.
    + now apply (reachable_handle_inv s Hr).
    + now apply (reachable_shows_widget s Hr).
Qed.

Lemma rendering_contract_witness :
  placeholder (render loadedState) = false /\
  container_display (render loadedState) = "block" /\
  exists k m, containerRef loadedState = Some [widgetChild k m].
Proof.
  destruct (rendering_contract loadedState) as (_ & H).
  - exists (Some "abc123"), (Some okProvider), [EvTimer 1].
    vm_compute. reflexivity.
  - destruct H as (Hp & Hd & _ & Hc); [vm_compute; reflexivity|].
    split; [exact Hp|]. split; [exact Hd|exact Hc].
Defined.

(** ** The timer queue *)

Lemma queue_wf_filter f l n e : queue_wf l n e -> queue_wf (filter f l) n e.
Proof.
  intros (Hu & Hlt & He & Hto). repeat split.
  - intros t u Ht Hu'. apply filter_In in Ht as [Ht _].
    apply filter_In in Hu' as [Hu' _]. auto.
  - intros t Ht. apply filter_In in Ht as [Ht _]. auto.
  - exact He.
  - apply filter_In in H as [H _]. now apply (Hto t ci).
  - intros u Hu' Hid. apply filter_In in H as [H _].
    apply filter_In in Hu' as [Hu' _].
    now apply (proj2 (Hto t ci H H0) u).
Qed.

Lemma reschedule_In t l u :
  In u (reschedule t l) ->
  exists u0, In u0 l /\ tid u = tid u0 /\ cb u = cb u0 /\ due u0 <= due u /\
             (tid u0 <> tid t -> u = u0) /\
             (tid u0 = tid t ->
              u = {| tid := tid u0;
                     due := due u0 + match period t with Some p => p | None => 0 end;
                     period := period u0; cb := cb u0 |}).
Proof.
  unfold reschedule. destruct (period t) as [p|].
  - intros Hu. apply in_map_iff in Hu as (u0 & <- & Hu0). exists u0.
    destruct (tid u0 =? tid t) eqn:E; simpl.
    + apply N.eqb_eq in E. repeat split; auto; try lia; congruence.
    + apply N.eqb_neq in E. repeat split; auto; try lia; congruence.
  - intros Hu. apply filter_In in Hu as [Hu Hne]. exists u.
    apply negb_true_iff, N.eqb_neq in Hne.
    repeat split; auto; try lia; congruence.
Qed.

Lemma queue_wf_reschedule t l n e :
  queue_wf l n e -> queue_wf (reschedule t l) n e.
Proof.
  intros (Hu & Hlt & He & Hto). repeat split.
  - intros a b Ha Hb Hid.
    destruct (reschedule_In t l a Ha) as (a0 & Ha0 & Hta & _ & _ & Hane & Haeq).
    destruct (reschedule_In t l b Hb) as (b0 & Hb0 & Htb & _ & _ & Hbne & Hbeq).
    assert (a0 = b0) as <- by (apply Hu; auto; congruence).
    destruct (N.eq_dec (tid a0) (tid t)) as [E|E].
    + now rewrite (Haeq E), (Hbeq E).
    + now rewrite (Hane E), (Hbne E).
  - intros a Ha.
    destruct (reschedule_In t l a Ha) as (a0 & Ha0 & Hta & _).
    rewrite Hta. auto.
  - exact He.
  - destruct (reschedule_In t l t0 H) as (a0 & Ha0 & Hta & Hca & _).
    rewrite Hta. apply (Hto a0 ci Ha0). congruence.
  - intros u Hu' Hid.
    destruct (reschedule_In t l t0 H) as (a0 & Ha0 & Hta & Hca & _).
    destruct (reschedule_In t l u Hu') as (u0 & Hu0 & Htu & Hcu & _).
    assert (Hp : is_poll u0).
    { apply (proj2 (Hto a0 ci Ha0 ltac:(congruence)) u0 Hu0). congruence. }
    destruct Hp as (r & Hr). exists r. congruence.
Qed.

Lemma queue_wf_add l n e d per c :
  queue_wf l n e ->
  (forall ci, c = TimeoutCb ci ->
     ci < n /\ forall u, In u l -> tid u = ci -> is_poll u) ->
  queue_wf (l ++ [{| tid := n; due := d; period := per; cb := c |}]) (n + 1) e.
Proof.
  intros (Hu & Hlt & He & Hto) Hc. repeat split.
  - intros a b Ha Hb Hid.
    apply in_app_iff in Ha as [Ha|[<-|[]]]; apply in_app_iff in Hb as [Hb|[<-|[]]];
      auto.
    + specialize (Hlt a Ha). simpl in Hid. lia.
    + specialize (Hlt b Hb). simpl in Hid. lia.
  - intros a Ha. apply in_app_iff in Ha as [Ha|[<-|[]]].
    + specialize (Hlt a Ha). lia.
    + simpl. lia.
  - lia.
  - apply in_app_iff in H as [H|[<-|[]]].
    + now apply (Hto t ci).
    + simpl in *. now apply Hc.
  - intros u Hu' Hid. apply in_app_iff in H as [H|[<-|[]]].
    + destruct (Hto t ci H H0) as (Hlt' & Hp).
      apply in_app_iff in Hu' as [Hu'|[<-|[]]]; [now apply Hp|].
      specialize (Hlt t H). simpl in Hid. lia.
    + simpl in H0. destruct (Hc ci H0) as (Hlt' & Hp).
      apply in_app_iff in Hu' as [Hu'|[<-|[]]]; [now apply Hp|].
      simpl in Hid. lia.
Qed.

Lemma queue_wf_effect l n e e' : queue_wf l n e -> e' < n -> queue_wf l n e'.
Proof.
  intros (Hu & Hlt & _ & Hto) He.
  exact (conj Hu (conj Hlt (conj He Hto))).
Qed.

Lemma cleanup_queue s :
  timers (cleanup s) = timers s /\
  nextTimerId (cleanup s) = nextTimerId s /\
  effectTimer (cleanup s) = effectTimer s.
Proof.
  unfold cleanup. destruct (widgetInstance s) as [[up [d|]]|]; simpl; auto.
  now destruct (d (containerRef s)) as [c' [err|]].
Qed.

Lemma initializeWidget_queue r s :
  timers (initializeWidget r s) = timers s /\
  nextTimerId (initializeWidget r s) = nextTimerId s /\
  effectTimer (initializeWidget r s) = effectTimer s.
Proof.
  unfold initializeWidget. destruct (containerRef s); [|auto]. simpl.
  destruct (window_initializeDiroWidget s) as [p|]; [|auto].
  now destruct (p _ _).
Qed.

Lemma timers_wf_fireTimer t s : timers_wf s -> timers_wf (fireTimer t s).
Proof.
  unfold timers_wf. intros Hwf.
  assert (H1 : queue_wf (timers (atFire t s)) (nextTimerId (atFire t s))
                 (effectTimer (atFire t s)))
    by (apply queue_wf_reschedule, Hwf).
  destruct (fireTimer_cases t s)
    as [H|[(r & p & _ & [(_ & H)|(_ & H)])|[(r & _ & _ & H)|(ci & _ & H)]]];
    rewrite H.
  - exact H1.
  - cbn [timers nextTimerId effectTimer with_hasInitialized].
    destruct (initializeWidget_queue r (atFire t s)) as (-> & -> & ->). exact H1.
  - cbn [timers nextTimerId effectTimer with_hasInitialized clearTimer with_timers].
    destruct (initializeWidget_queue r (atFire t s)) as (-> & -> & ->).
    now apply queue_wf_filter.
  - unfold pollStarted, setTimeout, setInterval, setTimer.
    cbn [snd timers nextTimerId effectTimer with_nextTimerId with_timers now].
    apply queue_wf_add.
    + apply queue_wf_add; [exact H1|discriminate].
    + change (nextTimerId (atFire t s)) with (nextTimerId s) in *.
      intros ci [= <-]. split; [lia|].
      intros u Hu Hid. apply in_app_iff in Hu as [Hu|[<-|[]]].
      * destruct H1 as (_ & Hlt & _). specialize (Hlt u Hu). lia.
      * now exists r.
  - cbn [timers nextTimerId effectTimer emit with_log clearTimer with_timers].
    now apply queue_wf_filter.
Qed.

Lemma timers_wf_step ev s s' : timers_wf s -> step ev s = Some s' -> timers_wf s'.
Proof.
  intros Hwf Hstep. step_cases Hstep ev; try exact Hwf.
  - now apply timers_wf_fireTimer.
  - unfold updateWidget. destruct (widgetInstance s) as [w|]; [|exact Hwf].
    now destruct (update w data (containerRef s)).
  - unfold timers_wf, commitRender, reinitialize, setTimeout, setTimer.
    cbn [snd fst timers nextTimerId effectTimer with_effectTimer with_nextTimerId
         with_timers with_containerRef with_hasInitialized with_containerKey
         clearTimer now].
    destruct (cleanup_queue s) as (-> & -> & ->).
    apply (queue_wf_effect _ _ (effectTimer s)); [|lia].
    apply queue_wf_add; [|discriminate].
    apply queue_wf_filter.
    apply queue_wf_add; [exact Hwf|discriminate].
  - unfold timers_wf, unmount.
    cbn [timers nextTimerId effectTimer with_mounted with_containerRef clearTimer
         with_timers].
    destruct (cleanup_queue (if b then with_containerRef None s else s))
      as (-> & -> & ->).
    apply queue_wf_filter. now destruct b.
Qed.

(** X8. On every run from mount the timer queue stays well formed: no two
    pending timers share an id, every id is below the next one to be given
    out, and the timer whose id a pending timeout callback holds is, if it
    is still pending, a poll interval.  So the [clearInterval] of a timeout
    never cancels a mount delay, a reinitialize delay or another timeout. *)
Theorem timeout_cancels_only_polls s :
  reachable s ->
  (forall t u, In t (timers s) -> In u (timers s) -> tid t = tid u -> t = u) /\
  (forall t, In t (timers s) -> tid t < nextTimerId s) /\
  (forall t ci u,
      In t (timers s) -> cb t = TimeoutCb ci ->
      In u (timers s) -> tid u = ci -> is_poll u).
Proof.
  intros Hr.
  assert (H : timers_wf s).
  { revert s Hr. apply reachable_invariant.
    - intros u p. unfold timers_wf, mount. simpl. repeat split.
      + intros t u' [<-|[]] [<-|[]] _. reflexivity.
      + intros t [<-|[]]. simpl. lia.
      + destruct H as [<-|[]]. discriminate.
      + destruct H as [<-|[]]. discriminate.
    - intros ev s s'. apply timers_wf_step. }
  destruct H as (Hu & Hlt & _ & Hto). repeat split; auto.
  intros t ci u Ht Hcb. now apply (proj2 (Hto t ci Ht Hcb)).
Qed.

Lemma timeout_cancels_only_polls_witness :
  nextTimerId (after [EvReinitialize; EvTimer 2] (mount None None)) = 6 /\
  forall t, In t (timers (after [EvReinitialize; EvTimer 2] (mount None None))) ->
            tid t < 6.
Proof.
  split; [vm_compute; reflexivity|].
  apply (proj1 (proj2 (timeout_cancels_only_polls
                         (after [EvReinitialize; EvTimer 2] (mount None None))
                         ltac:(exists None, None, [EvReinitialize; EvTimer 2];
                               vm_compute; reflexivity)))).
Defined.

(** ** A successful attempt *)

Lemma initializeWidgetProcess_success r s p m :
  hasInitialized s = false ->
  window_initializeDiroWidget s = Some p ->
  containerRef s <> None ->
  p (inner_id (r_key r)) (widgetOptions (makeTargetUrl (r_urn r))) = Injected m ->
  initializeWidgetProcess r s = (with_hasInitialized true (widgetLoaded r m s), None).
Proof.
  intros Hh Hp Hc Hm. unfold initializeWidgetProcess. rewrite Hh, Hp.
  destruct (initializeWidget_cases r s p Hp)
    as [(Hn & _)|[(m' & Hm' & _ & E)|(e & He & _)]].
  - contradiction.
  - rewrite E. congruence.
  - congruence.
Qed.

Lemma cleanup_now s : now (cleanup s) = now s.
Proof.
  unfold cleanup. destruct (widgetInstance s) as [[up [d|]]|]; simpl; try reflexivity.
  now destruct (d (containerRef s)) as [c' [err|]].
Qed.

Lemma find_new_timer n eff l x rest :
  (forall t, In t l -> tid t < n) -> eff < n -> tid x = n ->
  find (fun t => tid t =? n)
    (filter (fun t => negb (tid t =? eff)) (l ++ [x]) ++ rest) = Some x.
Proof.
  intros Hlt He Hx. induction l as [|t l IH]; simpl.
  - rewrite Hx. replace (n =? eff) with false by (symmetry; apply N.eqb_neq; lia).
    simpl. now rewrite Hx, N.eqb_refl.
  - assert (Ht : (tid t =? n) = false)
      by (apply N.eqb_neq; specialize (Hlt t (or_introl eq_refl)); lia).
    destruct (negb (tid t =? eff)); simpl; rewrite ?Ht; apply IH;
      intros u Hu; apply Hlt; now right.
Qed.

Lemma fireTimer_reinit t r s :
  cb t = ReinitDelayCb r ->
  fireTimer t s = fst (initializeWidgetProcess r (atFire t s)).
Proof.
  intros Hcb. unfold fireTimer, runCallback. now rewrite Hcb.
Qed.

Lemma fireTimer_mount_delay t r s :
  cb t = MountDelayCb r ->
  fireTimer t s = fst (initializeWidgetProcess r (atFire t s)).
Proof.
  intros Hcb. unfold fireTimer, runCallback. now rewrite Hcb.
Qed.

Lemma atFire_frame t s :
  hasInitialized (atFire t s) = hasInitialized s /\
  containerRef (atFire t s) = containerRef s /\
  window_initializeDiroWidget (atFire t s) = window_initializeDiroWidget s /\
  containerKey (atFire t s) = containerKey s.
Proof. repeat split. Qed.

(** The state one turn after the holder's call of [reinitialize]. *)
Lemma reinitialized_state s :
  hasInitialized (commitRender (reinitialize s)) = false /\
  containerRef (commitRender (reinitialize s)) = Some [] /\
  window_initializeDiroWidget (commitRender (reinitialize s)) =
    window_initializeDiroWidget s /\
  containerKey (commitRender (reinitialize s)) = containerKey s + 1.
Proof.
  unfold commitRender, reinitialize, setTimeout, setTimer.
  cbn [snd fst hasInitialized containerRef window_initializeDiroWidget containerKey
       with_effectTimer with_nextTimerId with_timers with_containerRef
       with_hasInitialized with_containerKey clearTimer].
  now rewrite cleanup_provider, cleanup_containerKey.
Qed.

(** X9. [reinitialize] retries whatever happened before, guard set or not:
    from any state of a mounted component, after the holder's call the
    reinitialize delay is pending under the id just given out, and if the
    provider is present and succeeds when that timer fires, the widget is
    loaded.  The attempt runs in the render that was current at the call:
    the child [div] it creates carries the id of the previous generation
    while the container around it already carries the new one. *)
Theorem reinitialize_retries s s1 p m :
  reachable s ->
  step EvReinitialize s = Some s1 ->
  window_initializeDiroWidget s = Some p ->
  p (inner_id (containerKey s)) (widgetOptions (makeTargetUrl (urn s))) = Injected m ->
  findTimer (nextTimerId s) s1 = Some (reinitTimer s) /\
  hasInitialized s1 = false /\
  isWidgetLoaded (fireTimer (reinitTimer s) s1) = true /\
  hasInitialized (fireTimer (reinitTimer s) s1) = true /\
  containerRef (fireTimer (reinitTimer s) s1) =
    Some [widgetChild (containerKey s) m] /\
  container_id (render (fireTimer (reinitTimer s) s1)) =
    ("diro-widget-container-" ++ string_of_N (containerKey s + 1))%string.
Proof.
  intros Hr Hstep Hp Hm.
  assert (Hwf : timers_wf s).
  { clear Hstep Hp Hm. revert s Hr.
    apply reachable_invariant; [|intros ev s s'; apply timers_wf_step].
    intros u p'. unfold timers_wf, mount. simpl. repeat split.
    - intros t u' [<-|[]] [<-|[]] _. reflexivity.
    - intros t [<-|[]]. simpl. lia.
    - destruct H as [<-|[]]. discriminate.
    - destruct H as [<-|[]]. discriminate. }
  destruct Hwf as (_ & Hlt & He & _).
  split.
  - unfold findTimer. rewrite (reinitialize_event_timers s s1 Hstep).
    now apply find_new_timer.
  - simpl in Hstep. destruct (mounted s); [|discriminate].
    injection Hstep as <-.
    destruct (reinitialized_state s) as (Hh & Hc & Hw & Hk).
    split; [exact Hh|].
    rewrite (fireTimer_reinit (reinitTimer s) (currentRender s) _ eq_refl).
    destruct (atFire_frame (reinitTimer s) (commitRender (reinitialize s)))
      as (Eh & Ec & Ew & Ek).
    assert (Hh' : hasInitialized
                    (atFire (reinitTimer s) (commitRender (reinitialize s))) = false)
      by (rewrite Eh; exact Hh).
    assert (Hc' : containerRef
                    (atFire (reinitTimer s) (commitRender (reinitialize s))) <> None)
      by (rewrite Ec, Hc; discriminate).
    assert (Hw' : window_initializeDiroWidget
                    (atFire (reinitTimer s) (commitRender (reinitialize s))) = Some p)
      by (rewrite Ew, Hw; exact Hp).
    assert (Hk' : containerKey
                    (atFire (reinitTimer s) (commitRender (reinitialize s)))
                  = containerKey s + 1) by (rewrite Ek; exact Hk).
    clear Eh Ec Ew Ek.
    revert Hh' Hc' Hw' Hk'.
    generalize (atFire (reinitTimer s) (commitRender (reinitialize s))) as s1.
    intros s1 Hh' Hc' Hw' Hk'.
    rewrite (initializeWidgetProcess_success (currentRender s) s1 p m Hh' Hw' Hc' Hm).
    unfold render, widgetLoaded.
    cbn [fst isWidgetLoaded hasInitialized containerRef containerKey container_id
         with_hasInitialized with_isWidgetLoaded with_widgetInstance
         with_containerRef emit with_log currentRender r_key].
    rewrite Hk'. repeat split.
Qed.

Lemma reinitialize_retries_witness :
  hasInitialized failedState = true /\
  isWidgetLoaded
    (fireTimer (reinitTimer (with_provider (Some okProvider) failedState))
       (after [EvReinitialize] (with_provider (Some okProvider) failedState)))
  = true.
Proof.
  split; [vm_compute; reflexivity|].
  destruct (reinitialize_retries (with_provider (Some okProvider) failedState)
              (after [EvReinitialize] (with_provider (Some okProvider) failedState))
              okProvider "<button>Start verification</button>")
    as (_ & _ & H & _).
  - exists (Some "abc123"), (Some failingProvider),
      [EvTimer 1; EvSetProvider (Some okProvider)].
    vm_compute. reflexivity.
  - vm_compute. reflexivity.
  - vm_compute. reflexivity.
  - reflexivity.
  - exact H.
Defined.

(** ** After unmount *)

Lemma inert_fireTimer t s :
  inert s ->
  inert (fireTimer t s) /\
  provider_calls (fireTimer t s) = provider_calls s /\
  destroy_calls (fireTimer t s) = destroy_calls s /\
  widgetInstance (fireTimer t s) = widgetInstance s.
Proof.
  intros (Hm & Hc & Hl). unfold inert.
  destruct (fireTimer_cases t s)
    as [H|[(r & p & Hp & H)|[(r & _ & _ & H)|(ci & _ & H)]]].
  - rewrite H. repeat split; assumption.
  - assert (E : initializeWidget r (atFire t s) = atFire t s).
    { destruct (initializeWidget_cases r (atFire t s) p Hp)
        as [(_ & E)|[(m & _ & Hne & _)|(e & _ & Hne & _)]];
        [exact E|destruct (Hne Hc)|destruct (Hne Hc)]. }
    destruct H as [(_ & H)|(_ & H)]; rewrite H, E; repeat split; assumption.
  - rewrite H. repeat split; assumption.
  - rewrite H. repeat split; try assumption.
    + rewrite provider_calls_emit by reflexivity. reflexivity.
    + unfold destroy_calls, emit. simpl. rewrite filter_app. simpl.
      now rewrite app_nil_r.
Qed.

Lemma inert_step ev s s' :
  inert s -> step ev s = Some s' ->
  inert s' /\ provider_calls s' = provider_calls s /\
  destroy_calls s' = destroy_calls s /\ widgetInstance s' = widgetInstance s.
Proof.
  intros Hi Hstep. pose proof Hi as (Hm & Hc & Hl).
  step_cases Hstep ev; try congruence.
  - repeat split; assumption.
  - now apply inert_fireTimer.
  - repeat split; assumption.
Qed.

Lemma inert_run evs s s' :
  inert s -> run evs s = Some s' ->
  inert s' /\ provider_calls s' = provider_calls s /\
  destroy_calls s' = destroy_calls s /\ widgetInstance s' = widgetInstance s.
Proof.
  revert s. induction evs as [|ev evs IH]; simpl; intros s Hi Hrun.
  - injection Hrun as <-. auto.
  - destruct (step ev s) as [s1|] eqn:Hstep; [|discriminate].
    destruct (inert_step ev s s1 Hi Hstep) as (Hi1 & Hp1 & Hd1 & Hw1).
    destruct (IH s1 Hi1 Hrun) as (Hi' & Hp' & Hd' & Hw').
    repeat split; try apply Hi'; congruence.
Qed.

(** X10. An unmounted component is inert.  Timers that survive unmount
    still fire, but whatever happens after the component has been unmounted,
    the provider is never called again, no handle is created or destroyed,
    the container reference stays null and nothing is loaded: every
    [initializeWidget] returns at its first line. *)
Theorem unmounted_is_inert b s s1 evs s2 :
  reachable s ->
  step (EvUnmount b) s = Some s1 ->
  run evs s1 = Some s2 ->
  mounted s2 = false /\
  containerRef s2 = None /\
  isWidgetLoaded s2 = false /\
  widgetInstance s2 = None /\
  provider_calls s2 = provider_calls s /\
  destroy_calls s2 = destroy_calls s1.
Proof.
  intros Hr Hstep Hrun.
  pose proof (reachable_handle_inv s Hr) as Hinv.
  simpl in Hstep. destruct (mounted s); [|discriminate]. injection Hstep as <-.
  assert (Hi : inert (unmount b s)).
  { split; [reflexivity|]. split; [reflexivity|]. now apply unmount_unloads. }
  destruct (inert_run evs _ s2 Hi Hrun) as ((Hm & Hc & Hl) & Hp & Hd & Hw).
  repeat split; auto.
  - rewrite Hw. unfold unmount.
    cbn [widgetInstance with_mounted with_containerRef clearTimer with_timers].
    apply cleanup_empties_slot.
    destruct b; [|exact Hinv]. eapply handle_inv_frame; [| |exact Hinv]; reflexivity.
  - now rewrite Hp, unmount_provider_calls.
Qed.

Lemma unmounted_is_inert_witness :
  pending 2 (unmountedPolling true) = true /\
  provider_calls
    (after [EvSetProvider (Some okProvider); EvTimer 2; EvTimer 3]
       (unmountedPolling true)) = 0%nat.
Proof.
  split; [vm_compute; reflexivity|].
  destruct (unmounted_is_inert true pollingStart (unmountedPolling true)
              [EvSetProvider (Some okProvider); EvTimer 2; EvTimer 3]
              (after [EvSetProvider (Some okProvider); EvTimer 2; EvTimer 3]
                 (unmountedPolling true)))
    as (_ & _ & _ & _ & H & _).
  - exists None, None, [EvTimer 1]. vm_compute. reflexivity.
  - vm_compute. reflexivity.
  - vm_compute. reflexivity.
  - rewrite H. vm_compute. reflexivity.
Defined.

(** ** The delays *)

Lemma initializeWidget_now r s : now (initializeWidget r s) = now s.
Proof.
  unfold initializeWidget. destruct (containerRef s); [|reflexivity]. simpl.
  destruct (window_initializeDiroWidget s) as [p|]; [|reflexivity].
  now destruct (p _ _).
Qed.

Lemma not_before_fireTimer d t s :
  In t (timers s) -> not_before d s -> not_before d (fireTimer t s).
Proof.
  intros Hin (Ht & _).
  assert (Hnow : d <= now (atFire t s))
    by (specialize (Ht t Hin); simpl; lia).
  assert (Hts : forall u, In u (timers (atFire t s)) -> d <= due u).
  { intros u Hu. destruct (reschedule_In t _ u Hu) as (u0 & Hu0 & _ & _ & Hd & _).
    specialize (Ht u0 Hu0). lia. }
  revert Hnow Hts. generalize (fireTimer_cases t s).
  generalize (atFire t s) as s1. intros s1 Hcases Hnow Hts.
  destruct Hcases
    as [H|[(r & p & _ & [(_ & H)|(_ & H)])|[(r & _ & _ & H)|(ci & _ & H)]]];
    rewrite H; split; try (intros _; exact Hnow).
  - exact Hts.
  - cbn [timers with_hasInitialized]. now rewrite initializeWidget_timers.
  - intros _. cbn [now with_hasInitialized]. now rewrite initializeWidget_now.
  - cbn [timers with_hasInitialized clearTimer with_timers].
    rewrite initializeWidget_timers.
    intros u Hu. apply filter_In in Hu as [Hu _]. auto.
  - intros _. cbn [now with_hasInitialized clearTimer with_timers].
    now rewrite initializeWidget_now.
  - unfold pollStarted, setTimeout, setInterval, setTimer.
    cbn [snd timers with_nextTimerId with_timers now].
    intros u Hu. apply in_app_iff in Hu as [Hu|[<-|[]]];
      [apply in_app_iff in Hu as [Hu|[<-|[]]]|]; auto; simpl; lia.
  - cbn [timers emit with_log clearTimer with_timers].
    intros u Hu. apply filter_In in Hu as [Hu _]. auto.
Qed.

Lemma not_before_step d ev s s' :
  d <= 300 -> (is_reinitialize ev = true -> d <= 100) ->
  not_before d s -> step ev s = Some s' -> not_before d s'.
Proof.
  intros Hd Hre Hnb Hstep. pose proof Hnb as (Ht & Hc).
  step_cases Hstep ev.
  - split; [exact Ht|]. intros Hne. specialize (Hc Hne). simpl. lia.
  - apply not_before_fireTimer; [|exact Hnb]. now apply (findTimer_In id).
  - exact Hnb.
  - exact Hnb.
  - destruct (updateWidget_frame data s) as (Htm & _ & Hlog & _).
    unfold not_before, provider_calls. rewrite Htm, Hlog.
    split; [exact Ht|]. intros Hne. specialize (Hc Hne).
    unfold updateWidget. destruct (widgetInstance s) as [w|]; [|exact Hc].
    now destruct (update w data (containerRef s)).
  - specialize (Hre eq_refl).
    assert (Hst : step EvReinitialize s = Some (commitRender (reinitialize s)))
      by (simpl; now rewrite Hm).
    split.
    + rewrite (reinitialize_event_timers s _ Hst).
      intros u Hu. apply in_app_iff in Hu as [Hu|[<-|[]]]; [|simpl; lia].
      apply filter_In in Hu as [Hu _].
      apply in_app_iff in Hu as [Hu|[<-|[]]]; [auto|simpl; lia].
    + change (provider_calls (cleanup s) <> 0%nat -> d <= now (cleanup s)).
      now rewrite cleanup_provider_calls, cleanup_now.
  - split.
    + rewrite unmount_timers. intros u Hu. apply filter_In in Hu as [Hu _]. auto.
    + rewrite unmount_provider_calls.
      change (provider_calls s <> 0%nat ->
              d <= now (cleanup (if b then with_containerRef None s else s))).
      rewrite cleanup_now. now destruct b.
Qed.

Lemma not_before_mount d u p : d <= 300 -> not_before d (mount u p).
Proof.
  intros Hd. split.
  - intros t [<-|[]]. simpl. lia.
  - intros H. now destruct H.
Qed.

(** X11. The provider is never called at once.  On any run from mount it
    is not called before 100 ms have passed (the reinitialize delay), and
    as long as the holder has not called [reinitialize] it is not called
    before 300 ms have passed (the mount delay). *)
Theorem provider_not_called_early u p evs s :
  run evs (mount u p) = Some s ->
  provider_calls s <> 0%nat ->
  100 <= now s /\ (no_reinitialize evs -> 300 <= now s).
Proof.
  intros Hrun Hne. split.
  - apply (run_invariant (not_before 100)
             (fun ev s0 s1 H => not_before_step 100 ev s0 s1 ltac:(lia) ltac:(lia) H)
             evs (mount u p) s); auto.
    apply not_before_mount. lia.
  - intros Hno.
    refine (proj2 (run_invariant_on (fun ev => negb (is_reinitialize ev))
                     (not_before 300) _ evs (mount u p) s Hno
                     (not_before_mount 300 u p ltac:(lia)) Hrun) Hne).
    intros ev s0 s1 Hev H. apply not_before_step; [lia| |exact H].
    intros E. rewrite E in Hev. discriminate.
Qed.

Lemma provider_not_called_early_witness :
  now loadedState = 300 /\ 300 <= now loadedState.
Proof.
  split; [vm_compute; reflexivity|].
  apply (provider_not_called_early (Some "abc123") (Some okProvider)
           [EvTimer 1] loadedState);
    try (vm_compute; reflexivity).
  vm_compute. discriminate.
Defined.

(** ** One attempt, one call *)

Lemma fireTimer_timeout_eq t ci s :
  cb t = TimeoutCb ci ->
  fireTimer t s =
  emit (ConsoleWarn "Failed to initialize widget after timeout")
    (clearTimer ci (atFire t s)).
Proof. intros Hcb. unfold fireTimer, runCallback. now rewrite Hcb. Qed.

(** With only timeouts pending, a turn of the event loop other than
    [reinitialize] leaves only timeouts pending and does not call the
    provider; unless it is the unmount, it leaves the loaded flag, the
    handle and, under the component's own handle, the container alone. *)
Lemma timeouts_only_step ev s s' :
  (forall t, In t (timers s) -> is_timeout t) ->
  negb (is_reinitialize ev) = true ->
  step ev s = Some s' ->
  (forall t, In t (timers s') -> is_timeout t) /\
  provider_calls s' = provider_calls s /\
  (is_unmount ev = false ->
   isWidgetLoaded s' = isWidgetLoaded s /\
   widgetInstance s' = widgetInstance s /\
   (widgetInstance s = Some simplifiedInstance -> containerRef s' = containerRef s)).
Proof.
  intros Hto Hev Hstep. step_cases Hstep ev; try discriminate Hev.
  - repeat split; auto.
  - destruct (Hto t (findTimer_In _ _ _ Hf)) as (ci & Hci).
    rewrite (fireTimer_timeout_eq t ci s Hci).
    split; [|split].
    + cbn [timers emit with_log clearTimer with_timers].
      eapply timers_sub_timeouts; [|exact Hto].
      eapply timers_sub_trans; [apply timers_sub_filter|apply timers_sub_reschedule].
    + rewrite provider_calls_emit by reflexivity. reflexivity.
    + intros _. repeat split.
  - repeat split; auto.
  - repeat split; auto.
  - destruct (updateWidget_frame data s) as (Htm & Hld & Hlog & _).
    unfold provider_calls. rewrite Htm, Hld, Hlog.
    repeat split; auto; unfold updateWidget.
    + destruct (widgetInstance s) as [w|] eqn:Hw; [|exact Hw].
      now destruct (update w data (containerRef s)).
    + intros ->. reflexivity.
  - rewrite unmount_timers, unmount_provider_calls.
    split; [|split; [reflexivity|discriminate]].
    eapply timers_sub_timeouts; [apply timers_sub_filter|exact Hto].
Qed.

(** During the single attempt a turn either does not call the provider or
    leaves only timeouts pending. *)
Lemma single_attempt_call ev s s' :
  single_attempt s -> step ev s = Some s' ->
  provider_calls s' = provider_calls s \/
  (forall t, In t (timers s') -> is_timeout t).
Proof.
  intros Hsa Hstep.
  destruct (provider_calls_step ev s s' Hstep) as [H|(_ & id & ->)];
    [now left|].
  simpl in Hstep. destruct (findTimer id s) as [t|] eqn:Hf; [|discriminate].
  destruct (earliest _ s); [|discriminate]. injection Hstep as <-.
  pose proof (findTimer_In _ _ _ Hf) as Hin.
  destruct (fireTimer_cases t s)
    as [H|[(r & p & Hp & H)|[(r & _ & _ & H)|(ci & _ & H)]]].
  - left. now rewrite H.
  - right. destruct Hsa as [(_ & Hs)|[(ci & _ & Hs)|Hs]].
    + destruct Hs as [Hs|(t0 & Hs & (r0 & Hr0) & Hper)]; rewrite Hs in Hin;
        [destruct Hin|].
      destruct Hin as [->|[]].
      assert (Hre : timers (atFire t s) = []).
      { unfold atFire, reschedule. rewrite Hper. simpl. rewrite Hs. simpl.
        now rewrite N.eqb_refl. }
      destruct H as [(_ & H)|(_ & H)]; rewrite H;
        cbn [timers with_hasInitialized clearTimer with_timers];
        rewrite initializeWidget_timers, Hre; intros u [].
    + destruct (Hs t Hin) as [(Htid & r0 & Hr0)|(_ & Hcb)];
        destruct H as [([Hc|Hc] & H)|(Hc & H)]; try congruence.
      rewrite H. cbn [timers with_hasInitialized clearTimer with_timers].
      rewrite initializeWidget_timers.
      intros u Hu. apply filter_In in Hu as [Hu Hne].
      destruct (timers_sub_reschedule t _ u Hu) as (u0 & Hu0 & Ht0 & Hc0).
      destruct (Hs u0 Hu0) as [(Htid0 & _)|(_ & Hcb0)].
      * rewrite Ht0, Htid0, <- Htid, N.eqb_refl in Hne. discriminate.
      * exists ci. congruence.
    + destruct (Hs t Hin) as (ci & Hci).
      destruct H as [([Hc|Hc] & H)|(Hc & H)]; congruence.
  - left. now rewrite H.
  - left. rewrite H. now rewrite provider_calls_emit.
Qed.

Lemma called_once_step ev s s' :
  negb (is_reinitialize ev) = true ->
  called_once s -> step ev s = Some s' -> called_once s'.
Proof.
  intros Hev Hco Hstep.
  destruct (provider_calls_step ev s s' Hstep) as [Hc|(Hc & _)].
  - destruct Hco as [(H0 & Hsa)|(H1 & Hto)].
    + left. split; [congruence|]. now apply (single_attempt_step ev s s').
    + right. split; [lia|].
      now apply (timeouts_only_step ev s s' Hto Hev Hstep).
  - destruct Hco as [(H0 & Hsa)|(H1 & Hto)].
    + right. split; [lia|].
      destruct (single_attempt_call ev s s' Hsa Hstep) as [H|H]; [lia|exact H].
    + destruct (timeouts_only_step ev s s' Hto Hev Hstep) as (_ & H & _). lia.
Qed.

(** X12. Without [reinitialize] the provider is called at most once: on
    every run from mount in which the holder never calls [reinitialize],
    whatever the script, the timers and the holder do, the log holds at most
    one call of the provider. *)
Theorem provider_called_at_most_once u p evs s :
  no_reinitialize evs ->
  run evs (mount u p) = Some s ->
  (provider_calls s <= 1)%nat.
Proof.
  intros Hno Hrun.
  assert (H : called_once s).
  { apply (run_invariant_on (fun ev => negb (is_reinitialize ev)) called_once
             called_once_step evs (mount u p) s Hno); auto.
    left. split; [reflexivity|].
    apply (single_attempt_run u p [] (mount u p)); reflexivity. }
  destruct H as [(H & _)|(H & _)]; lia.
Qed.

Lemma provider_called_at_most_once_witness :
  (provider_calls
     (after [EvTimer 1; EvSetProvider (Some okProvider); EvTimer 2;
             EvUpdateWidget JsNull; EvTimer 3]
        (mount None None)) <= 1)%nat.
Proof.
  apply (provider_called_at_most_once None None
           [EvTimer 1; EvSetProvider (Some okProvider); EvTimer 2;
            EvUpdateWidget JsNull; EvTimer 3]);
    vm_compute; reflexivity.
Defined.

Lemma settled_run evs s s' :
  no_reinitialize evs -> no_unmount evs ->
  settled s -> run evs s = Some s' ->
  settled s' /\ containerRef s' = containerRef s /\
  provider_calls s' = provider_calls s.
Proof.
  unfold no_reinitialize, no_unmount. revert s.
  induction evs as [|ev evs IH]; simpl; intros s Hre Hun Hs Hrun.
  - injection Hrun as <-. auto.
  - destruct (step ev s) as [s1|] eqn:Hstep; [|discriminate].
    apply andb_true_iff in Hre as [Hre1 Hre]. apply andb_true_iff in Hun as [Hun1 Hun].
    destruct Hs as (Hl & Hw & Hto).
    destruct (timeouts_only_step ev s s1 Hto Hre1 Hstep) as (Hto1 & Hc1 & Hrest).
    destruct Hrest as (Hl1 & Hw1 & Hcont); [now apply negb_true_iff|].
    assert (Hs1 : settled s1)
      by (split; [congruence|split; [congruence|exact Hto1]]).
    destruct (IH s1 Hre Hun Hs1 Hrun) as (Hs' & Hc' & Hp').
    split; [exact Hs'|]. split; [|congruence].
    rewrite Hc'. now apply Hcont.
Qed.

(** X13. Once loaded, always loaded, until the holder reinitializes or the
    component is unmounted: on a run from mount without [reinitialize], from
    a state in which the widget is loaded, no timer, no [updateWidget], no
    change of props and no change of the global provider unloads the
    widget, touches its container or calls the provider again. *)
Theorem loaded_stays_loaded u p evs1 s1 evs2 s2 :
  no_reinitialize evs1 ->
  run evs1 (mount u p) = Some s1 ->
  isWidgetLoaded s1 = true ->
  no_reinitialize evs2 -> no_unmount evs2 ->
  run evs2 s1 = Some s2 ->
  isWidgetLoaded s2 = true /\
  widgetInstance s2 = Some simplifiedInstance /\
  containerRef s2 = containerRef s1 /\
  provider_calls s2 = provider_calls s1.
Proof.
  intros Hno1 Hrun1 Hl Hno2 Hun2 Hrun2.
  assert (Hs : settled s1).
  { split; [exact Hl|]. split.
    - apply (reachable_handle_inv s1); [now exists u, p, evs1|exact Hl].
    - destruct (single_attempt_run u p evs1 s1 Hno1 Hrun1)
        as [(Hf & _)|[(ci & Hf & _)|H]]; [congruence|congruence|exact H]. }
  destruct (settled_run evs2 s1 s2 Hno2 Hun2 Hs Hrun2) as ((Hl2 & Hw2 & _) & Hc & Hp).
  auto.
Qed.

Lemma loaded_stays_loaded_witness :
  isWidgetLoaded
    (after [EvSetProvider None; EvTimer 3; EvUpdateWidget (JsStr "x")] polledState)
  = true.
Proof.
  apply (loaded_stays_loaded None None
           [EvTimer 1; EvElapse 50; EvSetProvider (Some okProvider); EvTimer 2]
           polledState
           [EvSetProvider None; EvTimer 3; EvUpdateWidget (JsStr "x")]);
    vm_compute; reflexivity.
Defined.

(** ** The two ways to a loaded widget *)

(** X14. The direct way.  If the provider is there when the mount delay
    expires, 300 ms after mount, and does not throw, the widget is loaded
    in that very turn: the provider has been called once, with the child
    [div] of generation 0 and the URL of the urn; the container holds that
    child with the provider's markup; the guard is set, no timer is left
    pending and the placeholder is no longer rendered. *)
Theorem mount_with_provider_loads u p m :
  p (inner_id 0) (widgetOptions (makeTargetUrl u)) = Injected m ->
  exists s,
    run [EvTimer 1] (mount u (Some p)) = Some s /\
    now s = 300 /\
    isWidgetLoaded s = true /\
    hasInitialized s = true /\
    timers s = [] /\
    containerRef s = Some [widgetChild 0 m] /\
    log s = [ProviderCalled (inner_id 0) (widgetOptions (makeTargetUrl u))] /\
    placeholder (render s) = false.
Proof.
  intros Hm. eexists. split.
  - unfold run, step.
    change (findTimer 1 (mount u (Some p))) with (Some (mountTimer u)).
    change (earliest (due (mountTimer u)) (mount u (Some p))) with true.
    cbv iota.
    rewrite (fireTimer_mount_delay (mountTimer u) {| r_key := 0; r_urn := u |}
               _ eq_refl).
    rewrite (initializeWidgetProcess_success {| r_key := 0; r_urn := u |}
               (atFire (mountTimer u) (mount u (Some p))) p m
               eq_refl eq_refl ltac:(discriminate) Hm).
    reflexivity.
  - repeat split.
Qed.

Lemma mount_with_provider_loads_witness :
  exists s,
    run [EvTimer 1] (mount (Some "abc123") (Some okProvider)) = Some s /\
    isWidgetLoaded s = true /\ timers s = [].
Proof.
  destruct (mount_with_provider_loads (Some "abc123") okProvider
              "<button>Start verification</button>" eq_refl)
    as (s & Hrun & _ & Hl & _ & Ht & _).
  exists s. auto.
Defined.

Lemma fireTimer_poll t r s :
  cb t = CheckIntervalCb r ->
  fireTimer t s =
  match window_initializeDiroWidget (atFire t s) with
  | Some _ =>
      clearTimer (tid t) (with_hasInitialized true (initializeWidget r (atFire t s)))
  | None => atFire t s
  end.
Proof. intros Hcb. unfold fireTimer, runCallback. now rewrite Hcb. Qed.

(** X15. The polling way.  A tick of the poll interval that does not find
    the provider changes nothing but the clock and the interval's next due
    time.  The first tick that finds the provider, if the provider does not
    throw and the container is mounted, loads the widget, sets the guard
    and cancels the interval, and calls the provider exactly once. *)
Theorem poll_tick t r s :
  cb t = CheckIntervalCb r ->
  (window_initializeDiroWidget s = None ->
   fireTimer t s = atFire t s /\
   isWidgetLoaded (fireTimer t s) = isWidgetLoaded s /\
   hasInitialized (fireTimer t s) = hasInitialized s /\
   containerRef (fireTimer t s) = containerRef s /\
   log (fireTimer t s) = log s) /\
  (forall p m,
     window_initializeDiroWidget s = Some p ->
     containerRef s <> None ->
     p (inner_id (r_key r)) (widgetOptions (makeTargetUrl (r_urn r))) = Injected m ->
     isWidgetLoaded (fireTimer t s) = true /\
     hasInitialized (fireTimer t s) = true /\
     pending (tid t) (fireTimer t s) = false /\
     containerRef (fireTimer t s) = Some [widgetChild (r_key r) m] /\
     provider_calls (fireTimer t s) = S (provider_calls s)).
Proof.
  intros Hcb. rewrite (fireTimer_poll t r s Hcb). split.
  - intros Hp. change (window_initializeDiroWidget (atFire t s))
      with (window_initializeDiroWidget s). rewrite Hp. repeat split.
  - intros p m Hp Hc Hm.
    change (window_initializeDiroWidget (atFire t s))
      with (window_initializeDiroWidget s). rewrite Hp.
    destruct (initializeWidget_cases r (atFire t s) p Hp)
      as [(Hn & _)|[(m' & Hm' & _ & E)|(e & He & _)]];
      [now destruct Hc| |congruence].
    assert (m' = m) as -> by congruence.
    rewrite E. unfold widgetLoaded.
    cbn [isWidgetLoaded hasInitialized containerRef clearTimer with_timers
         with_hasInitialized with_isWidgetLoaded with_widgetInstance
         with_containerRef emit with_log].
    split; [reflexivity|]. split; [reflexivity|].
    split; [apply pending_filter|]. split; [reflexivity|].
    unfold provider_calls.
    cbn [log clearTimer with_timers with_hasInitialized with_isWidgetLoaded
         with_widgetInstance with_containerRef emit with_log atFire with_now].
    rewrite filter_app, length_app. simpl. lia.
Qed.

Lemma poll_tick_witness :
  In firstPoll (timers pollingStart) /\
  isWidgetLoaded
    (fireTimer firstPoll (with_provider (Some okProvider) pollingStart)) = true.
Proof.
  split; [vm_compute; left; reflexivity|].
  apply (proj2 (poll_tick firstPoll {| r_key := 0; r_urn := None |}
                  (with_provider (Some okProvider) pollingStart) eq_refl)
           okProvider "<button>Start verification</button>").
  - reflexivity.
  - vm_compute. discriminate.
  - reflexivity.
Defined.

(** ** reinitialize, one turn later *)

Lemma fireTimer_mounted t s : mounted (fireTimer t s) = mounted s.
Proof.
  destruct (fireTimer_cases t s)
    as [H|[(r & p & Hp & H)|[(r & _ & _ & H)|(ci & _ & H)]]].
  - now rewrite H.
  - assert (E : mounted (initializeWidget r (atFire t s)) = mounted s).
    { destruct (initializeWidget_cases r (atFire t s) p Hp)
        as [(_ & E)|[(m & _ & _ & E)|(e & _ & _ & E)]]; now rewrite E. }
    destruct H as [(_ & H)|(_ & H)]; now rewrite H.
  - now rewrite H.
  - now rewrite H.
Qed.

Lemma fireTimer_keeps_container t s :
  containerRef s <> None -> containerRef (fireTimer t s) <> None.
Proof.
  intros Hc.
  destruct (fireTimer_cases t s)
    as [H|[(r & p & Hp & H)|[(r & _ & _ & H)|(ci & _ & H)]]].
  - now rewrite H.
  - assert (E : containerRef (initializeWidget r (atFire t s)) <> None).
    { destruct (initializeWidget_cases r (atFire t s) p Hp)
        as [(_ & E)|[(m & _ & _ & E)|(e & _ & _ & E)]]; rewrite E;
        [exact Hc|discriminate|discriminate]. }
    destruct H as [(_ & H)|(_ & H)]; now rewrite H.
  - now rewrite H.
  - now rewrite H.
Qed.

(** A mounted component has its container. *)
Lemma mounted_container_step ev s s' :
  handle_inv s ->
  (mounted s = true -> containerRef s <> None) ->
  step ev s = Some s' ->
  mounted s' = true -> containerRef s' <> None.
Proof.
  intros Hinv Hc Hstep. step_cases Hstep ev; try exact Hc.
  - rewrite fireTimer_mounted. intros Hm. now apply fireTimer_keeps_container, Hc.
  - intros _. now apply Hc.
  - intros _. destruct Hinv as ([Hw|Hw] & _); unfold updateWidget; rewrite Hw;
      now apply Hc.
  - intros _. discriminate.
  - intros H. discriminate H.
Qed.

Lemma reachable_mounted_container s :
  reachable s -> mounted s = true -> containerRef s <> None.
Proof.
  intros Hr.
  assert (H : handle_inv s /\ (mounted s = true -> containerRef s <> None));
    [|apply H].
  revert s Hr. apply reachable_invariant.
  - intros u p. split; [apply reachable_handle_inv, reachable_mount|].
    intros _. discriminate.
  - intros ev s s' (Hinv & Hc) Hstep. split.
    + now apply (handle_inv_step ev s s').
    + now apply (mounted_container_step ev s s').
Qed.

Lemma reachable_timers_wf s : reachable s -> timers_wf s.
Proof.
  revert s. apply reachable_invariant; [|intros ev s s'; apply timers_wf_step].
  intros u p. unfold timers_wf, mount. simpl. repeat split.
  - intros t u' [<-|[]] [<-|[]] _. reflexivity.
  - intros t [<-|[]]. simpl. lia.
  - destruct H as [<-|[]]. discriminate.
  - destruct H as [<-|[]]. discriminate.
Qed.

(** What the commit after a change of generation leaves of state [x]. *)
Lemma commitRender_frame x :
  widgetInstance (commitRender x) = widgetInstance x /\
  isWidgetLoaded (commitRender x) = isWidgetLoaded x /\
  containerRef (commitRender x) = Some [] /\
  destroy_calls (commitRender x) = destroy_calls x /\
  containerKey (commitRender x) = containerKey x /\
  hasInitialized (commitRender x) = hasInitialized x /\
  effectTimer (commitRender x) = nextTimerId x.
Proof. repeat split. Qed.

(** C5, as stated, fails: one call of [reinitialize] queues two initialize
    attempts, the reinitialize delay and the mount delay of the new
    generation.  With the provider absent both start to poll, and when the
    script loads the provider is called twice. *)
Lemma reinitialize_queues_two_attempts :
  map cb (timers (after [EvReinitialize] (mount None None))) =
    [ReinitDelayCb {| r_key := 0; r_urn := None |};
     MountDelayCb {| r_key := 1; r_urn := None |}] /\
  run [EvReinitialize; EvTimer 2; EvTimer 3; EvSetProvider (Some okProvider);
       EvTimer 4; EvTimer 6] (mount None None) = Some reinitializedOnce /\
  count_reinitialize
    [EvReinitialize; EvTimer 2; EvTimer 3; EvSetProvider (Some okProvider);
     EvTimer 4; EvTimer 6] = 1%nat /\
  provider_calls reinitializedOnce = 2%nat.
Proof.
  split; [vm_compute; reflexivity|].
  split; [vm_compute; reflexivity|].
  split; vm_compute; reflexivity.
Qed.

(** C5, amended. In every reachable state of a mounted component, loaded or
    not, the holder's call of [reinitialize] leaves no handle, a cleared
    loaded flag and an empty container; it has called [destroy] once if
    there was a handle and not at all otherwise; the container generation
    has grown by one; the guard is cleared; and the call has added one timer
    to the queue, which runs [initializeWidgetProcess] 100 ms later.  One
    turn later the [containerKey] effect has cancelled its previous timer
    and added a second one, which runs [initializeWidgetProcess] of the new
    generation 300 ms after the call: two attempts are then pending, and
    nothing else has changed in the queue. *)
Theorem reinitialize_tears_down_and_schedules_twice s s' :
  reachable s ->
  step EvReinitialize s = Some s' ->
  (widgetInstance (reinitialize s) = None /\
   isWidgetLoaded (reinitialize s) = false /\
   containerRef (reinitialize s) = Some [] /\
   destroy_calls (reinitialize s) =
     (destroy_calls s + match widgetInstance s with Some _ => 1 | None => 0 end)%nat /\
   containerKey (reinitialize s) = containerKey s + 1 /\
   containerKey s < containerKey (reinitialize s) /\
   hasInitialized (reinitialize s) = false /\
   timers (reinitialize s) = timers s ++ [reinitTimer s]) /\
  (widgetInstance s' = None /\
   isWidgetLoaded s' = false /\
   containerRef s' = Some [] /\
   destroy_calls s' = destroy_calls (reinitialize s) /\
   containerKey s' = containerKey s + 1 /\
   hasInitialized s' = false /\
   timers s' =
     filter (fun t => negb (tid t =? effectTimer s)) (timers s) ++
     [reinitTimer s; remountTimer s] /\
   effectTimer s' = tid (remountTimer s)) /\
  (forall x, runCallback (reinitTimer s) x =
             fst (initializeWidgetProcess (currentRender s) x)) /\
  (forall x, runCallback (remountTimer s) x =
             fst (initializeWidgetProcess
                    {| r_key := containerKey s + 1; r_urn := urn s |} x)).
Proof.
  intros Hr Hstep.
  destruct (reinitialize_body s Hr) as (Hw & Hl & Hc & Hd & Hk & Hlt & Hh & Ht & Hcb).
  destruct (reachable_timers_wf s Hr) as (_ & _ & He & _).
  pose proof (reinitialize_event_timers s s' Hstep) as Hts.
  simpl in Hstep. destruct (mounted s) eqn:Hm; [|discriminate].
  injection Hstep as <-.
  pose proof (reachable_mounted_container s Hr Hm) as Hne.
  destruct (commitRender_frame (reinitialize s))
    as (Ew & El & Ec & Ed & Ek & Eh & Ee).
  split; [|split; [|split]].
  - rewrite Hc. destruct (containerRef s) as [l|]; [|now destruct Hne].
    repeat split; auto.
  - rewrite Ew, El, Ec, Ed, Ek, Eh, Ee.
    split; [exact Hw|]. split; [exact Hl|]. split; [reflexivity|].
    split; [reflexivity|]. split; [exact Hk|]. split; [exact Hh|]. split.
    + rewrite Hts, filter_app. cbn [filter reinitTimer tid].
      replace (nextTimerId s =? effectTimer s) with false
        by (symmetry; apply N.eqb_neq; lia).
      cbn [negb]. now rewrite <- app_assoc.
    + unfold reinitialize, setTimeout, setTimer.
      cbn [fst snd nextTimerId with_nextTimerId with_timers with_hasInitialized
           with_containerKey remountTimer tid].
      now destruct (cleanup_queue s) as (_ & -> & _).
  - exact Hcb.
  - reflexivity.
Qed.

Lemma reinitialize_tears_down_and_schedules_twice_witness :
  isWidgetLoaded loadedState = true /\
  containerRef (reinitialize loadedState) = Some [] /\
  destroy_calls (reinitialize loadedState) = 1%nat /\
  timers (after [EvReinitialize] loadedState) =
    [reinitTimer loadedState; remountTimer loadedState].
Proof.
  split; [vm_compute; reflexivity|].
  destruct (reinitialize_tears_down_and_schedules_twice loadedState
              (after [EvReinitialize] loadedState))
    as ((_ & _ & Hc & Hd & _) & (_ & _ & _ & _ & _ & _ & Ht & _) & _).
  - exists (Some "abc123"), (Some okProvider), [EvTimer 1].
    vm_compute. reflexivity.
  - vm_compute. reflexivity.
  - split; [exact Hc|]. split; [exact Hd|exact Ht].
Defined.
